(** * RedInk: outline parser and image-directory reconciler

    A shallow embedding of
    - [OutlineService._parse_outline]   (backend/services/outline.py),
    - [HistoryService.update_record] and
      [HistoryService.scan_and_sync_task_images]
                                        (backend/services/history.py),
    - the tables of backend/models.py that these two touch,
    followed by the properties established about them.

    Python [str] values are sequences of Unicode code points and are
    modelled as [list N]; Python [int] values are modelled as [Z]. *)

From Stdlib Require Import List NArith ZArith Bool String Ascii Lia.
From Stdlib Require Import Sorting.Sorted Sorting.Permutation.
Import ListNotations.

(** ** Python strings *)

Module PyStr.

Local Open Scope N_scope.

Definition pystr : Type := list N.

(** A literal: every character of the Rocq string is one code point. *)
Definition str (s : string) : pystr :=
  map N_of_ascii (list_ascii_of_string s).

(** The line feed, written "\n" in the Python sources. *)
Definition nl : pystr := [10].

Fixpoint eqb (a b : pystr) : bool :=
  match a, b with
  | [], [] => true
  | x :: a', y :: b' => (x =? y) && eqb a' b'
  | _, _ => false
  end.

(** [bool(s)] for a string: non-empty. *)
Definition truthy (s : pystr) : bool :=
  match s with [] => false | _ :: _ => true end.

(** [str.isspace] on one code point (CPython [_PyUnicode_IsWhitespace]);
    the same set is [\s] of [re] on [str] patterns. *)
Definition isspace (c : N) : bool :=
  ((9 <=? c) && (c <=? 13)) || ((28 <=? c) && (c <=? 32))
  || (c =? 0x85) || (c =? 0xA0) || (c =? 0x1680)
  || ((0x2000 <=? c) && (c <=? 0x200A))
  || (c =? 0x2028) || (c =? 0x2029) || (c =? 0x202F)
  || (c =? 0x205F) || (c =? 0x3000).

Fixpoint dropwhile (p : N -> bool) (s : pystr) : pystr :=
  match s with
  | [] => []
  | c :: r => if p c then dropwhile p r else s
  end.

Fixpoint takewhile (p : N -> bool) (s : pystr) : pystr :=
  match s with
  | [] => []
  | c :: r => if p c then c :: takewhile p r else []
  end.

Definition strip_by (p : N -> bool) (s : pystr) : pystr :=
  rev (dropwhile p (rev (dropwhile p s))).

(** [s.strip()] *)
Definition strip (s : pystr) : pystr := strip_by isspace s.

(** [prefix_by eqc p s]: [p] matches at the start of [s], characters
    compared with [eqc]. *)
Fixpoint prefix_by (eqc : N -> N -> bool) (p s : pystr) : bool :=
  match p, s with
  | [], _ => true
  | _ :: _, [] => false
  | a :: p', b :: s' => eqc a b && prefix_by eqc p' s'
  end.

(** [s.startswith(p)] and [s.endswith(p)] *)
Definition startswith (s p : pystr) : bool := prefix_by N.eqb p s.
Definition endswith (s p : pystr) : bool := prefix_by N.eqb (rev p) (rev s).

(** [p in s] *)
Fixpoint contains (p s : pystr) : bool :=
  match s with
  | [] => prefix_by N.eqb p []
  | _ :: r => prefix_by N.eqb p s || contains p r
  end.

(** Splitting on the leftmost, non-overlapping occurrences of a non-empty
    separator. [skip] counts the characters of a matched separator still
    to be passed over; [cur] is the current segment, reversed. *)
Fixpoint split_go (eqc : N -> N -> bool) (sep : pystr)
         (skip : nat) (cur : pystr) (s : pystr) : list pystr :=
  match s with
  | [] => [rev cur]
  | c :: r =>
      match skip with
      | S k => split_go eqc sep k cur r
      | O =>
          if prefix_by eqc sep s
          then rev cur :: split_go eqc sep (List.length sep - 1) [] r
          else split_go eqc sep 0 (c :: cur) r
      end
  end.

(** [s.split(sep)] *)
Definition split (s sep : pystr) : list pystr :=
  split_go N.eqb sep 0 [] s.

(** Lower case of an ASCII letter, any other code point unchanged. *)
Definition ascii_lower (c : N) : N :=
  if (65 <=? c) && (c <=? 90) then c + 32 else c.

(** Character comparison of [re.IGNORECASE] for a pattern of ASCII
    letters none of which is i, k or s: on those, the only code points of
    Unicode that match are the letter's two ASCII cases. *)
Definition eq_ignorecase (a b : N) : bool :=
  ascii_lower a =? ascii_lower b.

(** [re.split(pat, s, flags=re.IGNORECASE)] for a literal pattern. *)
Definition re_split_ignorecase (pat s : pystr) : list pystr :=
  split_go eq_ignorecase pat 0 [] s.

(** Position of the last "]" of [s]. *)
Fixpoint last_bracket (s : pystr) : option nat :=
  match s with
  | [] => None
  | c :: r =>
      match last_bracket r with
      | Some i => Some (S i)
      | None => if c =? 93 then Some O else None
      end
  end.

(** [re.match(r"\[(\S+)\]", s)], giving [group(1)]: after an opening
    bracket, the greedy [\S+] runs over the non-blank characters and
    backtracks to the last "]" that leaves it at least one character. *)
Definition match_bracket_tag (s : pystr) : option pystr :=
  match s with
  | 91 :: rest =>
      match takewhile (fun c => negb (isspace c)) rest with
      | [] => None
      | c0 :: run =>
          match last_bracket run with
          | Some i => Some (c0 :: firstn i run)
          | None => None
          end
      end
  | _ => None
  end.

(** *** [int(s)] *)

(** Code points of the digit zero of every decimal-digit range of the
    Unicode character database (14.0, as shipped with CPython 3.11); each
    range holds the ten digits in order. *)
Definition decimal_zeros : list N :=
  [ 0x30; 0x660; 0x6f0; 0x7c0; 0x966; 0x9e6; 0xa66; 0xae6; 0xb66; 0xbe6;
    0xc66; 0xce6; 0xd66; 0xde6; 0xe50; 0xed0; 0xf20; 0x1040; 0x1090;
    0x17e0; 0x1810; 0x1946; 0x19d0; 0x1a80; 0x1a90; 0x1b50; 0x1bb0;
    0x1c40; 0x1c50; 0xa620; 0xa8d0; 0xa900; 0xa9d0; 0xa9f0; 0xaa50;
    0xabf0; 0xff10; 0x104a0; 0x10d30; 0x11066; 0x110f0; 0x11136; 0x111d0;
    0x112f0; 0x11450; 0x114d0; 0x11650; 0x116c0; 0x11730; 0x118e0;
    0x11950; 0x11c50; 0x11d50; 0x11da0; 0x16a60; 0x16ac0; 0x16b50;
    0x1d7ce; 0x1d7d8; 0x1d7e2; 0x1d7ec; 0x1d7f6; 0x1e140; 0x1e2f0;
    0x1e950; 0x1fbf0 ].

(** [Py_UNICODE_TODECIMAL] *)
Definition to_decimal (c : N) : option N :=
  match find (fun z => (z <=? c) && (c <? z + 10)) decimal_zeros with
  | Some z => Some (c - z)
  | None => None
  end.

(** Blanks that [int] skips around the number: the ASCII ones of
    [Py_ISSPACE] (which leave out 0x1C-0x1F) and every non-ASCII
    [isspace] character. *)
Definition int_space (c : N) : bool :=
  ((9 <=? c) && (c <=? 13)) || (c =? 32) || ((128 <=? c) && isspace c).

(** Digits with single underscores between them. [seen] tells whether
    the previous character was a digit. *)
Fixpoint int_digits (acc : N) (seen : bool) (s : pystr) : option N :=
  match s with
  | [] => if seen then Some acc else None
  | c :: r =>
      if c =? 95
      then if seen then int_digits acc false r else None
      else match to_decimal c with
           | Some d => int_digits (10 * acc + d) true r
           | None => None
           end
  end.

(** [int(s)] in base 10; [None] stands for [ValueError]. The limit on
    the number of digits (4300 by default) is left out: no file name is
    that long. *)
Definition int (s : pystr) : option Z :=
  match strip_by int_space s with
  | 45 :: r => option_map (fun n => Z.opp (Z.of_N n)) (int_digits 0 false r)
  | 43 :: r => option_map Z.of_N (int_digits 0 false r)
  | r => option_map Z.of_N (int_digits 0 false r)
  end.

(** [s.split('.')[0]] *)
Definition before_first_dot (s : pystr) : pystr :=
  takewhile (fun c => negb (c =? 46)) s.

End PyStr.

Import PyStr.

(** ** backend/services/outline.py *)

Module Outline.

(** One element of the list that [_parse_outline] returns: a dict with
    the keys "index", "type" and "content". *)
Record Page : Type := mkPage {
  index : Z;
  type : pystr;
  content : pystr
}.

Definition tag_cover : pystr := [0x5C01; 0x9762]%N.   (* 封面 *)
Definition tag_content : pystr := [0x5185; 0x5BB9]%N. (* 内容 *)
Definition tag_summary : pystr := [0x603B; 0x7ED3]%N. (* 总结 *)

(** [type_mapping.get(type_cn, "content")] *)
Definition type_mapping_get (type_cn : pystr) : pystr :=
  if PyStr.eqb type_cn tag_cover then str "cover"
  else if PyStr.eqb type_cn tag_content then str "content"
  else if PyStr.eqb type_cn tag_summary then str "summary"
  else str "content".

Definition page_type_of (page_text : pystr) : pystr :=
  match match_bracket_tag page_text with
  | Some type_cn => type_mapping_get type_cn
  | None => str "content"
  end.

(** The choice of the separator: the test is the case-sensitive
    ['<page>' in outline_text], the split itself ignores case. *)
Definition pages_raw (outline_text : pystr) : list pystr :=
  if contains (str "<page>") outline_text
  then re_split_ignorecase (str "<page>") outline_text
  else split outline_text (str "---").

(** The loop [for index, page_text in enumerate(pages_raw)], from
    position [index] on. *)
Fixpoint parse_pages (index : Z) (raw : list pystr) : list Page :=
  match raw with
  | [] => []
  | page_text :: rest =>
      let page_text := strip page_text in
      if truthy page_text
      then mkPage index (page_type_of page_text) page_text
           :: parse_pages (index + 1) rest
      else parse_pages (index + 1) rest
  end.

(** [OutlineService._parse_outline] *)
Definition _parse_outline (outline_text : pystr) : list Page :=
  parse_pages 0 (pages_raw outline_text).

End Outline.

Import Outline.

(** ** backend/models.py *)

Module Models.

(** Row of [history_records]. [None] is SQL NULL. The columns
    [record_id] and [content] of the two other tables carry the name of
    their table in front, field names being global here. *)
Record HistoryRecord : Type := mkHistoryRecord {
  id : pystr;
  title : pystr;
  status : pystr;
  thumbnail : option pystr;
  task_id : option pystr;
  outline_text : option pystr;
  created_at : Z;
  updated_at : Z
}.

(** Row of [outline_pages]; the autoincrement key, which no code reads,
    is left out. *)
Record OutlinePage : Type := mkOutlinePage {
  page_record_id : pystr;
  page_index : Z;
  page_type : pystr;
  page_content : pystr
}.

(** Row of [task_images]; [filename] is declared [nullable=False]. *)
Record TaskImage : Type := mkTaskImage {
  image_record_id : pystr;
  image_index : Z;
  filename : pystr
}.

(** The three tables, each in storage order. *)
Record Database : Type := mkDatabase {
  history_records : list HistoryRecord;
  outline_pages : list OutlinePage;
  task_images : list TaskImage
}.

(** [HistoryRecord.query.get(record_id)] *)
Definition query_get (db : Database) (record_id : pystr)
  : option HistoryRecord :=
  find (fun r => PyStr.eqb (id r) record_id) (history_records db).

(** SQL [task_id = ?]: never true of NULL. *)
Definition has_task_id (tid : pystr) (r : HistoryRecord) : bool :=
  match task_id r with
  | Some t => PyStr.eqb t tid
  | None => false
  end.

(** [HistoryRecord.query.filter_by(task_id=task_id).first()] *)
Definition query_first_by_task_id (db : Database) (tid : pystr)
  : option HistoryRecord :=
  find (has_task_id tid) (history_records db).

(** Rows of [record.pages] and of [record.images]. *)
Definition record_pages (db : Database) (record_id : pystr)
  : list OutlinePage :=
  filter (fun p => PyStr.eqb (page_record_id p) record_id) (outline_pages db).

Definition record_images (db : Database) (record_id : pystr)
  : list TaskImage :=
  filter (fun i => PyStr.eqb (image_record_id i) record_id) (task_images db).

(** [record.pages.count()] *)
Definition pages_count (db : Database) (record_id : pystr) : Z :=
  Z.of_nat (List.length (record_pages db record_id)).

End Models.

Import Models.

(** ** backend/services/history.py *)

Module History.

Local Open Scope Z_scope.

(** *** The session *)

(** A [TaskImage] object added to the session and not yet flushed: its
    [filename] is whatever Python value the caller supplied, [None]
    included. *)
Record NewTaskImage : Type := mkNewTaskImage {
  new_image_record_id : pystr;
  new_image_index : Z;
  new_filename : option pystr
}.

(** An [OutlinePage] object added to the session and not yet flushed:
    each attribute holds the Python value that was passed, [None]
    included. *)
Record NewOutlinePage : Type := mkNewOutlinePage {
  new_page_record_id : pystr;
  new_page_index : option Z;
  new_page_type : option pystr;
  new_page_content : option pystr
}.

(** Work of one transaction: the tables with the attribute changes and
    the bulk deletes applied, and the objects passed to
    [db.session.add]. *)
Record Session : Type := mkSession {
  s_db : Database;
  s_new_pages : list NewOutlinePage;
  s_new_images : list NewTaskImage
}.

Definition begin (db : Database) : Session := mkSession db [] [].

Fixpoint update_first (record_id : pystr)
         (f : HistoryRecord -> HistoryRecord)
         (rows : list HistoryRecord) : list HistoryRecord :=
  match rows with
  | [] => []
  | r :: rest =>
      if PyStr.eqb (id r) record_id then f r :: rest
      else r :: update_first record_id f rest
  end.

(** Attribute assignment on the object that [query.get(record_id)]
    returned. *)
Definition set_record (record_id : pystr)
           (f : HistoryRecord -> HistoryRecord) (s : Session) : Session :=
  let db := s_db s in
  mkSession
    (mkDatabase (update_first record_id f (history_records db))
                (outline_pages db) (task_images db))
    (s_new_pages s) (s_new_images s).

Definition set_updated_at (v : Z) (r : HistoryRecord) : HistoryRecord :=
  mkHistoryRecord (id r) (title r) (status r) (thumbnail r) (task_id r)
                  (outline_text r) (created_at r) v.

Definition set_outline_text (v : option pystr) (r : HistoryRecord)
  : HistoryRecord :=
  mkHistoryRecord (id r) (title r) (status r) (thumbnail r) (task_id r)
                  v (created_at r) (updated_at r).

Definition set_task_id (v : option pystr) (r : HistoryRecord)
  : HistoryRecord :=
  mkHistoryRecord (id r) (title r) (status r) (thumbnail r) v
                  (outline_text r) (created_at r) (updated_at r).

Definition set_status (v : pystr) (r : HistoryRecord) : HistoryRecord :=
  mkHistoryRecord (id r) (title r) v (thumbnail r) (task_id r)
                  (outline_text r) (created_at r) (updated_at r).

Definition set_thumbnail (v : option pystr) (r : HistoryRecord)
  : HistoryRecord :=
  mkHistoryRecord (id r) (title r) (status r) v (task_id r)
                  (outline_text r) (created_at r) (updated_at r).

(** [OutlinePage.query.filter_by(record_id=record_id).delete()] *)
Definition delete_pages (record_id : pystr) (s : Session) : Session :=
  let db := s_db s in
  mkSession
    (mkDatabase (history_records db)
                (filter (fun p => negb (PyStr.eqb (page_record_id p) record_id))
                        (outline_pages db))
                (task_images db))
    (s_new_pages s) (s_new_images s).

(** [TaskImage.query.filter_by(record_id=record_id).delete()] *)
Definition delete_images (record_id : pystr) (s : Session) : Session :=
  let db := s_db s in
  mkSession
    (mkDatabase (history_records db) (outline_pages db)
                (filter (fun i => negb (PyStr.eqb (image_record_id i) record_id))
                        (task_images db)))
    (s_new_pages s) (s_new_images s).

(** [db.session.add] *)
Definition add_pages (ps : list NewOutlinePage) (s : Session) : Session :=
  mkSession (s_db s) (s_new_pages s ++ ps) (s_new_images s).

Definition add_images (ims : list NewTaskImage) (s : Session) : Session :=
  mkSession (s_db s) (s_new_pages s) (s_new_images s ++ ims).

(** Flushing the new pages. [page_index] and [content] are declared
    [nullable=False] and have no default: a [None] there breaks the
    NOT NULL constraint. A [None] for [page_type] is left out of the
    INSERT by the ORM, so that the default of the column, 'content', is
    stored. [uix_record_page] refuses a second row with the same record
    and page index. *)
Fixpoint insert_pages (table : list OutlinePage)
         (news : list NewOutlinePage) : option (list OutlinePage) :=
  match news with
  | [] => Some table
  | p :: rest =>
      match new_page_index p, new_page_content p with
      | Some i, Some c =>
          if existsb (fun q => PyStr.eqb (page_record_id q)
                                         (new_page_record_id p)
                               && (page_index q =? i)) table
          then None
          else insert_pages
                 (table ++ [mkOutlinePage
                              (new_page_record_id p) i
                              (match new_page_type p with
                               | Some t => t
                               | None => str "content"
                               end)
                              c])
                 rest
      | _, _ => None
      end
  end.

(** Flushing the new images: the NOT NULL constraint on [filename] and
    [uix_record_image]. *)
Fixpoint insert_images (table : list TaskImage) (news : list NewTaskImage)
  : option (list TaskImage) :=
  match news with
  | [] => Some table
  | i :: rest =>
      match new_filename i with
      | None => None
      | Some name =>
          if existsb (fun j => PyStr.eqb (image_record_id j)
                                         (new_image_record_id i)
                               && (image_index j =? new_image_index i)) table
          then None
          else insert_images
                 (table ++ [mkTaskImage (new_image_record_id i)
                                        (new_image_index i) name])
                 rest
      end
  end.

(** [db.session.commit()]: the new state, or [None] when a constraint
    fails (IntegrityError). *)
Definition commit (s : Session) : option Database :=
  let db := s_db s in
  match insert_pages (outline_pages db) (s_new_pages s) with
  | None => None
  | Some pages =>
      match insert_images (task_images db) (s_new_images s) with
      | None => None
      | Some images => Some (mkDatabase (history_records db) pages images)
      end
  end.

(** *** Arguments of [update_record] *)

(** The dicts that callers pass. A field is [None] when the key is
    missing. The value of a key of a page, and of "raw", is a Python
    value of the expected type or Python's [None]: such a field is
    [Some None] when the key is there and holds [None]. "pages", when
    present, is a list of dicts. For "task_id" and "generated" a key that
    holds [None] and a missing key behave alike; the elements of
    "generated" are Python values, so one of them may be [None]
    itself. *)
Record PageDict : Type := mkPageDict {
  d_index : option (option Z);
  d_type : option (option pystr);
  d_content : option (option pystr)
}.

Record OutlineDict : Type := mkOutlineDict {
  raw : option (option pystr);
  pages : option (list PageDict)
}.

Record ImagesDict : Type := mkImagesDict {
  images_task_id : option pystr;
  generated : option (list (option pystr))
}.

(** [d.get(key, default)] *)
Definition get {A : Type} (v : option A) (default : A) : A :=
  match v with
  | Some a => a
  | None => default
  end.

Fixpoint enumerate {A : Type} (start : Z) (l : list A) : list (Z * A) :=
  match l with
  | [] => []
  | a :: rest => (start, a) :: enumerate (start + 1) rest
  end.

(** [d.get(key, default)] for a key that may hold [None]: the default
    is for the missing key only. *)
Definition get_value {A : Type} (v : option (option A)) (default : A)
  : option A :=
  match v with
  | Some a => a
  | None => Some default
  end.

Definition page_row (record_id : pystr) (page : PageDict)
  : NewOutlinePage :=
  mkNewOutlinePage record_id (get_value (d_index page) 0)
                   (get_value (d_type page) (str "content"))
                   (get_value (d_content page) []).

Definition new_image (record_id : pystr) (e : Z * option pystr)
  : NewTaskImage :=
  mkNewTaskImage record_id (fst e) (snd e).

(** [if outline is not None: ...] *)
Definition apply_outline (record_id : pystr) (outline : option OutlineDict)
           (s : Session) : Session :=
  match outline with
  | None => s
  | Some o =>
      let s := set_record record_id
                          (set_outline_text (get_value (raw o) [])) s in
      let s := delete_pages record_id s in
      add_pages (map (page_row record_id) (get (pages o) [])) s
  end.

(** [if images is not None: ...] *)
Definition apply_images (record_id : pystr) (images : option ImagesDict)
           (s : Session) : Session :=
  match images with
  | None => s
  | Some im =>
      let s :=
        match images_task_id im with
        | Some t =>
            if truthy t then set_record record_id (set_task_id (Some t)) s
            else s
        | None => s
        end in
      match get (generated im) [] with
      | [] => s
      | (_ :: _) as files =>
          let s := delete_images record_id s in
          add_images (map (new_image record_id) (enumerate 0 files)) s
      end
  end.

Definition apply_status (record_id : pystr) (status : option pystr)
           (s : Session) : Session :=
  match status with
  | Some v => set_record record_id (set_status v) s
  | None => s
  end.

Definition apply_thumbnail (record_id : pystr) (thumbnail : option pystr)
           (s : Session) : Session :=
  match thumbnail with
  | Some v => set_record record_id (set_thumbnail (Some v)) s
  | None => s
  end.

(** The body of the [try] block up to the commit: the changes made in
    the session, in program order. [now] is the value of
    [datetime.utcnow()]. *)
Definition staged_changes (db : Database) (now : Z) (record_id : pystr)
           (outline : option OutlineDict) (images : option ImagesDict)
           (status : option pystr) (thumbnail : option pystr) : Session :=
  let s := begin db in
  let s := set_record record_id (set_updated_at now) s in
  let s := apply_outline record_id outline s in
  let s := apply_images record_id images s in
  let s := apply_status record_id status s in
  apply_thumbnail record_id thumbnail s.

(** [HistoryService.update_record]. The result pairs the returned flag
    with the database after the call (unchanged after a rollback). *)
Definition update_record (db : Database) (now : Z) (record_id : pystr)
           (outline : option OutlineDict) (images : option ImagesDict)
           (status : option pystr) (thumbnail : option pystr)
  : bool * Database :=
  match query_get db record_id with
  | None => (false, db)
  | Some _ =>
      match commit (staged_changes db now record_id outline images
                                   status thumbnail) with
      | Some db' => (true, db')
      | None => (false, db)
      end
  end.

(** *** The file system *)

(** What the reconciler can observe of a path. *)
Inductive DirState : Type :=
| NoDirectory                     (* missing, or not a directory *)
| ListdirRaises (e : pystr)       (* os.listdir raises; [e] is str(e) *)
| Listing (names : list pystr).   (* os.listdir returns, in this order *)

Definition FileSystem : Type := pystr -> DirState.

(** [os.path.join(a, b)] (posixpath) *)
Definition os_path_join (a b : pystr) : pystr :=
  if startswith b (str "/") then b
  else if negb (truthy a) || endswith a (str "/") then a ++ b
  else a ++ str "/" ++ b.

(** The service object: [__init__] sets the absolute path of the
    history directory. *)
Record HistoryService : Type := mkHistoryService {
  history_dir : pystr
}.

(** *** [scan_and_sync_task_images] *)

(** The dict returned, one constructor per [return]. *)
Inductive ScanResult : Type :=
| Failure (error : pystr)
    (* {"success": False, "error": error} *)
| Synced (record_id task_id : pystr) (images_count : Z)
         (images : list pystr) (status : pystr)
    (* {"success": True, "record_id", "task_id", "images_count",
        "images", "status"} *)
| Orphan (task_id : pystr) (images_count : Z) (images : list pystr).
    (* {"success": True, "task_id", "images_count", "images",
        "no_record": True} *)

(** [result.get("no_record")] *)
Definition no_record (r : ScanResult) : bool :=
  match r with
  | Orphan _ _ _ => true
  | _ => false
  end.

(** The two conditions of the scanning loop. *)
Definition is_image_file (filename : pystr) : bool :=
  if startswith filename (str "thumb_") then false
  else endswith filename (str ".png") || endswith filename (str ".jpg")
       || endswith filename (str ".jpeg").

(** The sort key; the bare [except] turns any failure of [int] into
    999. *)
Definition get_index (filename : pystr) : Z :=
  match int (before_first_dot filename) with
  | Some n => n
  | None => 999
  end.

(** [l.sort(key=key)]: the sort is stable, so its result is the one of
    inserting from the right, each element before the first one with a
    key at least as large. *)
Fixpoint insert_by_key (key : pystr -> Z) (x : pystr) (l : list pystr)
  : list pystr :=
  match l with
  | [] => [x]
  | y :: rest =>
      if key x <=? key y then x :: l
      else y :: insert_by_key key x rest
  end.

Fixpoint sort_by_key (key : pystr -> Z) (l : list pystr) : list pystr :=
  match l with
  | [] => []
  | x :: rest => insert_by_key key x (sort_by_key key rest)
  end.

(** [image_files] after the scan and the sort. *)
Definition scan_image_files (names : list pystr) : list pystr :=
  sort_by_key get_index (filter is_image_file names).

(** The [if]/[elif]/[else] that sets [status]. *)
Definition derive_status (expected_count actual_count : Z) : pystr :=
  if actual_count =? 0 then str "draft"
  else if actual_count >=? expected_count then str "completed"
  else str "partial".

(* 任务目录不存在:  *)
Definition msg_no_directory : pystr :=
  [20219; 21153; 30446; 24405; 19981; 23384; 22312; 58; 32]%N.

(* 扫描任务失败:  *)
Definition msg_scan_failed : pystr :=
  [25195; 25551; 20219; 21153; 22833; 36133; 58; 32]%N.

(** [HistoryService.scan_and_sync_task_images]. [fs] is the file system
    as the call finds it and [now] the clock read by [update_record]; the
    result pairs the returned dict with the database after the call. The
    value returned by [update_record] is dropped, as in the source. *)
Definition scan_and_sync_task_images (self : HistoryService)
           (fs : FileSystem) (db : Database) (now : Z) (task_id : pystr)
  : ScanResult * Database :=
  let task_dir := os_path_join (history_dir self) task_id in
  match fs task_dir with
  | NoDirectory => (Failure (msg_no_directory ++ task_id), db)
  | ListdirRaises e => (Failure (msg_scan_failed ++ e), db)
  | Listing names =>
      let image_files := scan_image_files names in
      match query_first_by_task_id db task_id with
      | Some record =>
          let expected_count := pages_count db (id record) in
          let actual_count := Z.of_nat (List.length image_files) in
          let status := derive_status expected_count actual_count in
          let db' :=
            snd (update_record db now (id record) None
                   (Some (mkImagesDict (Some task_id)
                                       (Some (map Some image_files))))
                   (Some status) (hd_error image_files)) in
          (Synced (id record) task_id actual_count image_files status, db')
      | None =>
          (Orphan task_id (Z.of_nat (List.length image_files)) image_files,
           db)
      end
  end.

End History.

Import History.

(** ** The state after an update

    Not functions of the program: the terms in which the properties below
    say what a committed update leaves in the three tables. Their
    agreement with [staged_changes] and [commit] is proved, not assumed
    (lemmas [staged_records], [staged_pages], [staged_images] and
    [update_record_result]). *)

Module Effects.

Local Open Scope Z_scope.

(** The row that a new image becomes once flushed, its file name being
    present. *)
Definition stored_image (record_id : pystr) (e : Z * pystr) : TaskImage :=
  mkTaskImage record_id (fst e) (snd e).

(** What the assignments of [staged_changes] make of the record, taken
    together. *)
Definition updated_record (now : Z) (outline : option OutlineDict)
           (images : option ImagesDict) (status thumbnail : option pystr)
           (r : HistoryRecord) : HistoryRecord :=
  let r := set_updated_at now r in
  let r := match outline with
           | Some o => set_outline_text (get_value (raw o) []) r
           | None => r
           end in
  let r := match images with
           | Some im =>
               match images_task_id im with
               | Some t => if truthy t then set_task_id (Some t) r else r
               | None => r
               end
           | None => r
           end in
  let r := match status with
           | Some v => set_status v r
           | None => r
           end in
  match thumbnail with
  | Some v => set_thumbnail (Some v) r
  | None => r
  end.

(** The row that a new page becomes once flushed, its index and content
    being present. *)
Definition stored_page (p : NewOutlinePage) : OutlinePage :=
  mkOutlinePage (new_page_record_id p) (get (new_page_index p) 0)
                (get (new_page_type p) (str "content"))
                (get (new_page_content p) []).

(** The index that a page dict asks for, and the pages that the table
    takes: index and content not [None], and no index twice. *)
Definition index_of (page : PageDict) : option Z :=
  get_value (d_index page) 0.

Definition storable (page : PageDict) : Prop :=
  index_of page <> None /\ get_value (d_content page) [] <> None.

Definition pages_accepted (ps : list PageDict) : Prop :=
  Forall storable ps /\ NoDup (map index_of ps).

Definition outline_accepted (outline : option OutlineDict) : Prop :=
  forall o, outline = Some o -> pages_accepted (get (pages o) []).

(** The two dependent tables after a committed update: the rows of the
    record replaced by the new ones, or the table as it was when nothing
    was staged for it. *)
Definition pages_after (db : Database) (record_id : pystr)
           (outline : option OutlineDict) : list OutlinePage :=
  match outline with
  | None => outline_pages db
  | Some o =>
      filter (fun p => negb (PyStr.eqb (page_record_id p) record_id))
             (outline_pages db)
      ++ map (fun p => stored_page (page_row record_id p))
             (get (pages o) [])
  end.

Definition images_after (db : Database) (record_id : pystr)
           (files : list pystr) : list TaskImage :=
  match files with
  | [] => task_images db
  | _ :: _ =>
      filter (fun i => negb (PyStr.eqb (image_record_id i) record_id))
             (task_images db)
      ++ map (stored_image record_id) (enumerate 0 files)
  end.

(** The list that [images.get('generated', [])] yields, empty when no
    images dict is passed. *)
Definition generated_of (images : option ImagesDict)
  : list (option pystr) :=
  match images with
  | Some im => get (generated im) []
  | None => []
  end.

End Effects.

Import Effects.

(** ** Concrete inputs *)

Module Examples.

Local Open Scope Z_scope.

(** The text of tests/test_outline_parse.py, with the page bodies of the
    specification: three markers, the middle page blank. *)
Definition outline_blank_middle : pystr :=
  str "<page>" ++ nl ++ str "A" ++ nl ++ str "<page>" ++ nl ++ nl
      ++ str "<page>" ++ nl ++ str "B".

(** A text with the marker in upper case only, and the legacy marker. *)
Definition outline_upper_marker : pystr := str "<PAGE>A---B".

Definition svc : HistoryService := mkHistoryService (str "/app/history").

(** A file system with a single directory. *)
Definition one_dir (path : pystr) (names : list pystr) : FileSystem :=
  fun p => if PyStr.eqb p path then Listing names else NoDirectory.

Definition page (rid : string) (i : Z) (body : string) : OutlinePage :=
  mkOutlinePage (str rid) i (str "content") (str body).

(** A record of three pages, linked to task "t1", with one image and a
    thumbnail from an earlier run. *)
Definition rec1 : HistoryRecord :=
  mkHistoryRecord (str "r1") (str "topic") (str "completed")
                  (Some (str "0.png")) (Some (str "t1")) None 10 20.

Definition db1 : Database :=
  mkDatabase [rec1]
             [page "r1" 0 "a"; page "r1" 1 "b"; page "r1" 2 "c"]
             [mkTaskImage (str "r1") 0 (str "0.png")].

(** The record of tests/test_history_update.py: just created, no task,
    no image. *)
Definition rec_new : HistoryRecord :=
  mkHistoryRecord (str "r2") (str "test") (str "draft") None None
                  (Some (str "raw")) 30 30.

Definition db_new : Database :=
  mkDatabase [rec_new] [page "r2" 0 "a"] [].

Definition images_with_null : ImagesDict :=
  mkImagesDict (Some (str "task_test"))
               (Some [Some (str "0.png"); None; Some (str "2.png")]).

Definition images_plain : ImagesDict :=
  mkImagesDict (Some (str "task_test"))
               (Some [Some (str "0.png"); Some (str "1.png")]).

Definition fs_t1 (names : list pystr) : FileSystem :=
  one_dir (str "/app/history/t1") names.

(** Only the parent of the history directory exists. *)
Definition fs_parent : FileSystem :=
  one_dir (str "/app/history/..") [str "0.png"; str "notes.txt"].

End Examples.

Import Examples.

(** ** backend/models.py: the dict views and the key mask *)

Module Views.

Local Open Scope Z_scope.

(** SQL [ORDER BY key], ascending, on the rows of a query; rows of equal
    key are taken in storage order (SQL leaves their order open). *)
Fixpoint insert_row {A : Type} (key : A -> Z) (x : A) (l : list A)
  : list A :=
  match l with
  | [] => [x]
  | y :: rest =>
      if key x <=? key y then x :: l
      else y :: insert_row key x rest
  end.

Fixpoint order_by {A : Type} (key : A -> Z) (l : list A) : list A :=
  match l with
  | [] => []
  | x :: rest => insert_row key x (order_by key rest)
  end.

(** [OutlinePage.to_dict]: the keys "index", "type" and "content", as in
    the pages of the parser. *)
Definition to_dict (p : OutlinePage) : Page :=
  mkPage (page_index p) (page_type p) (page_content p).

(** The dict of [HistoryRecord.to_index_dict]. The two dates are kept as
    the stored values, not as their ISO text. *)
Record IndexDict : Type := mkIndexDict {
  ix_id : pystr;
  ix_title : pystr;
  ix_status : pystr;
  ix_thumbnail : option pystr;
  ix_task_id : option pystr;
  ix_page_count : Z;
  ix_created_at : Z;
  ix_updated_at : Z
}.

Definition to_index_dict (db : Database) (r : HistoryRecord) : IndexDict :=
  mkIndexDict (id r) (title r) (status r) (thumbnail r) (task_id r)
              (pages_count db (id r)) (created_at r) (updated_at r).

(** The dict of [HistoryRecord.to_full_dict], the nested dicts "outline"
    and "images" flattened into the fields [fd_raw], [fd_pages] and
    [fd_task_id], [fd_generated]. *)
Record FullDict : Type := mkFullDict {
  fd_id : pystr;
  fd_title : pystr;
  fd_status : pystr;
  fd_thumbnail : option pystr;
  fd_created_at : Z;
  fd_updated_at : Z;
  fd_raw : pystr;
  fd_pages : list Page;
  fd_task_id : option pystr;
  fd_generated : list pystr
}.

Definition to_full_dict (db : Database) (r : HistoryRecord) : FullDict :=
  mkFullDict (id r) (title r) (status r) (thumbnail r)
             (created_at r) (updated_at r)
             (match outline_text r with
              | Some t => if truthy t then t else []
              | None => []
              end)
             (map to_dict (order_by page_index (record_pages db (id r))))
             (task_id r)
             (map filename (order_by image_index (record_images db (id r)))).

(** [ProviderConfig._mask_api_key]; 42 is the asterisk. *)
Definition _mask_api_key (key : option pystr) : pystr :=
  match key with
  | None => []
  | Some k =>
      if negb (truthy k) then []
      else if (List.length k <=? 8)%nat then repeat 42%N (List.length k)
      else firstn 4 k ++ repeat 42%N (List.length k - 8)
                  ++ skipn (List.length k - 4) k
  end.

End Views.

Import Views.

(** ** backend/services/history.py: the other methods

    As above, a commit fails on a constraint of the schema only; a
    failure of the database itself, or a string that cannot be stored, is
    outside the model, except where a definition says otherwise. *)

Module Service.

Local Open Scope Z_scope.

(** Flushing a new record: the primary key refuses a second row with the
    same id. *)
Definition insert_record (table : list HistoryRecord) (r : HistoryRecord)
  : option (list HistoryRecord) :=
  if existsb (fun q => PyStr.eqb (id q) (id r)) table then None
  else Some (table ++ [r]).

(** [HistoryService.create_record]. [uuid] is the value of
    [str(uuid.uuid4())] and [now] the one of [datetime.utcnow()]. The
    result is the returned id with the database after the commit, or
    [None] when the commit fails: the session is rolled back and the
    exception raised again. *)
Definition create_record (db : Database) (now : Z) (uuid : pystr)
           (topic : pystr) (outline : OutlineDict) (task_id : option pystr)
  : option (pystr * Database) :=
  let record_id := uuid in
  let record :=
    mkHistoryRecord record_id topic (str "draft") None task_id
                    (get_value (raw outline) []) now now in
  let new_pages := map (page_row record_id) (get (pages outline) []) in
  match insert_record (history_records db) record with
  | None => None
  | Some records =>
      match insert_pages (outline_pages db) new_pages with
      | None => None
      | Some all_pages =>
          Some (record_id, mkDatabase records all_pages (task_images db))
      end
  end.

(** [HistoryService.get_record] *)
Definition get_record (db : Database) (record_id : pystr)
  : option FullDict :=
  match query_get db record_id with
  | None => None
  | Some record => Some (to_full_dict db record)
  end.

(** [HistoryService.delete_record]. The result holds the returned flag,
    the database after the call and the directory handed to
    [shutil.rmtree], if any; whether that removal succeeds does not
    matter to the rest. The delete of the record cascades to its pages
    and images. *)
Definition delete_record (self : HistoryService) (fs : FileSystem)
           (db : Database) (record_id : pystr)
  : bool * Database * option pystr :=
  match query_get db record_id with
  | None => (false, db, None)
  | Some record =>
      let removed :=
        match task_id record with
        | Some t =>
            if truthy t then
              let task_dir := os_path_join (history_dir self) t in
              match fs task_dir with
              | NoDirectory => None
              | _ => Some task_dir
              end
            else None
        | None => None
        end in
      (true,
       mkDatabase
         (filter (fun r => negb (PyStr.eqb (id r) record_id))
                 (history_records db))
         (filter (fun p => negb (PyStr.eqb (page_record_id p) record_id))
                 (outline_pages db))
         (filter (fun i => negb (PyStr.eqb (image_record_id i) record_id))
                 (task_images db)),
       removed)
  end.

(** SQL [OFFSET n] and [LIMIT n] as SQLite reads them: a negative offset
    is no offset, a negative limit no limit. *)
Definition sql_offset {A : Type} (n : Z) (rows : list A) : list A :=
  skipn (Z.to_nat n) rows.

Definition sql_limit {A : Type} (n : Z) (rows : list A) : list A :=
  if n <? 0 then rows else firstn (Z.to_nat n) rows.

(** The query of [list_records]: the optional filter, then
    [ORDER BY created_at DESC]. *)
Definition records_query (db : Database) (status : option pystr)
  : list HistoryRecord :=
  let rows :=
    match status with
    | Some s =>
        if truthy s
        then filter (fun r => PyStr.eqb (Models.status r) s)
                    (history_records db)
        else history_records db
    | None => history_records db
    end in
  order_by (fun r => - created_at r) rows.

(** The dict returned by [list_records]. *)
Record RecordPage : Type := mkRecordPage {
  records : list IndexDict;
  total : Z;
  page : Z;
  page_size : Z;
  total_pages : Z
}.

(** [HistoryService.list_records]; [None] stands for the
    ZeroDivisionError of a page size of 0. *)
Definition list_records (db : Database) (page page_size : Z)
           (status : option pystr) : option RecordPage :=
  let query := records_query db status in
  let total := Z.of_nat (List.length query) in
  let rows := sql_limit page_size (sql_offset ((page - 1) * page_size) query) in
  if page_size =? 0 then None
  else Some (mkRecordPage (map (to_index_dict db) rows) total page page_size
                          ((total + page_size - 1) / page_size)).

(** One more row for the group of [s]. *)
Fixpoint bump (s : pystr) (groups : list (pystr * Z)) : list (pystr * Z) :=
  match groups with
  | [] => [(s, 1)]
  | (k, n) :: rest =>
      if PyStr.eqb k s then (k, n + 1) :: rest
      else (k, n) :: bump s rest
  end.

(** [SELECT status, count(id) ... GROUP BY status], and the dict built
    from its rows. *)
Definition group_by_status (rows : list HistoryRecord) : list (pystr * Z) :=
  fold_left (fun groups r => bump (status r) groups) rows [].

(** [d.get(k)] on such a dict. *)
Fixpoint dict_get (k : pystr) (d : list (pystr * Z)) : option Z :=
  match d with
  | [] => None
  | (k', v) :: rest => if PyStr.eqb k' k then Some v else dict_get k rest
  end.

(** [HistoryService.get_statistics]: "total" and "by_status". *)
Definition get_statistics (db : Database) : Z * list (pystr * Z) :=
  (Z.of_nat (List.length (history_records db)),
   group_by_status (history_records db)).

(** *** [search_records] *)

(** The rest of the text, or a later rest, satisfies [f]: what "%"
    leaves to the remainder of a LIKE pattern. *)
Fixpoint like_any (f : pystr -> bool) (text : pystr) : bool :=
  f text || match text with
            | [] => false
            | _ :: rest => like_any f rest
            end.

(** The comparison of SQLite's LIKE without ESCAPE: "%" (37) stands for
    any run of characters, "_" (95) for any one character, and any other
    character for itself, the case of ASCII letters ignored. *)
Fixpoint pattern_compare (pattern text : pystr) : bool :=
  match pattern with
  | [] => negb (truthy text)
  | c :: pattern' =>
      if (c =? 37)%N then like_any (pattern_compare pattern') text
      else
        match text with
        | [] => false
        | d :: text' =>
            ((c =? 95)%N || eq_ignorecase c d)
            && pattern_compare pattern' text'
        end
  end.

(** A string as C code reads it: up to its first NUL (code point 0). *)
Definition until_nul (s : pystr) : pystr :=
  takewhile (fun c => negb (c =? 0)%N) s.

(** SQLite's [text LIKE pattern]: both operands are handed to the
    comparison as C strings, so each of them ends at its first NUL. *)
Definition like (pattern text : pystr) : bool :=
  pattern_compare (until_nul pattern) (until_nul text).

(** [HistoryRecord.title.ilike(pattern)], which SQLAlchemy renders for
    SQLite as [lower(title) LIKE lower(pattern)]; SQLite's [lower] changes
    ASCII letters only. *)
Definition ilike (text pattern : pystr) : bool :=
  like (map ascii_lower pattern) (map ascii_lower text).

(** Bytes of the UTF-8 form of a string, and whether it has one: a
    surrogate cannot be encoded, and binding such a parameter raises
    UnicodeEncodeError. *)
Definition utf8_length (s : pystr) : N :=
  fold_right (fun c n =>
                ((if c <? 0x80 then 1 else if c <? 0x800 then 2
                  else if c <? 0x10000 then 3 else 4) + n)%N)
             0%N s.

Definition encodable (s : pystr) : bool :=
  forallb (fun c => negb ((0xD800 <=? c) && (c <=? 0xDFFF))%N) s.

(** [HistoryService.search_records]; [None] stands for an exception,
    which the method does not catch: the keyword cannot be encoded, or
    the pattern is longer than the 50000 bytes that SQLite accepts by
    default ("LIKE or GLOB pattern too complex"), which shows as soon as
    there is a row to compare. The length is the one of the whole
    pattern, whatever follows a NUL included. *)
Definition search_records (db : Database) (keyword : pystr)
  : option (list IndexDict) :=
  let pattern := str "%" ++ keyword ++ str "%" in
  if negb (encodable pattern) then None
  else if (50000 <? utf8_length pattern)%N
          && negb (Nat.eqb (List.length (history_records db)) 0)
  then None
  else
    Some (map (to_index_dict db)
              (order_by (fun r => - created_at r)
                        (filter (fun r => ilike (title r) pattern)
                                (history_records db)))).


(** *** [scan_all_tasks] *)

(** The disk as [scan_all_tasks] probes it: the directories, and for a
    path that exists without being a directory the text of the error
    that [os.listdir] raises on it. *)
Record Disk : Type := mkDisk {
  dirs : FileSystem;
  not_dirs : pystr -> option pystr
}.

(** [os.path.exists] *)
Definition path_exists (disk : Disk) (path : pystr) : bool :=
  match dirs disk path with
  | NoDirectory =>
      match not_dirs disk path with
      | Some _ => true
      | None => false
      end
  | _ => true
  end.

(** [result.get("success")] *)
Definition success (r : ScanResult) : bool :=
  match r with
  | Failure _ => false
  | _ => true
  end.

(** The dict returned by [scan_all_tasks]. *)
Inductive BatchResult : Type :=
| BatchFailure (error : pystr)
| BatchDone (total_tasks synced failed : Z) (orphan_tasks : list pystr)
            (results : list ScanResult).

(** The variables of the loop, with the database. *)
Record BatchState : Type := mkBatchState {
  synced_count : Z;
  failed_count : Z;
  orphan_tasks_of : list pystr;
  results_of : list ScanResult;
  batch_db : Database
}.

(** One turn of [for item in os.listdir(self.history_dir)]. [clock]
    gives the time at which the task named is reconciled. *)
Definition scan_item (self : HistoryService) (fs : FileSystem)
           (clock : pystr -> Z) (st : BatchState) (item : pystr)
  : BatchState :=
  let item_path := os_path_join (history_dir self) item in
  match fs item_path with
  | NoDirectory => st
  | _ =>
      let task_id := item in
      let out := scan_and_sync_task_images self fs (batch_db st)
                                           (clock task_id) task_id in
      let result := fst out in
      let results := results_of st ++ [result] in
      if success result then
        if no_record result
        then mkBatchState (synced_count st) (failed_count st)
                          (orphan_tasks_of st ++ [task_id]) results (snd out)
        else mkBatchState (synced_count st + 1) (failed_count st)
                          (orphan_tasks_of st) results (snd out)
      else mkBatchState (synced_count st) (failed_count st + 1)
                        (orphan_tasks_of st) results (snd out)
  end.

(* 历史记录目录不存在 *)
Definition msg_no_history_dir : pystr :=
  [21382; 21490; 35760; 24405; 30446; 24405; 19981; 23384; 22312]%N.

(* 扫描所有任务失败:  *)
Definition msg_scan_all_failed : pystr :=
  [25195; 25551; 25152; 26377; 20219; 21153; 22833; 36133; 58; 32]%N.

Definition batch_done (st : BatchState) : BatchResult * Database :=
  (BatchDone (Z.of_nat (List.length (results_of st))) (synced_count st)
             (failed_count st) (orphan_tasks_of st) (results_of st),
   batch_db st).

(** [HistoryService.scan_all_tasks] *)
Definition scan_all_tasks (self : HistoryService) (disk : Disk)
           (clock : pystr -> Z) (db : Database) : BatchResult * Database :=
  if negb (path_exists disk (history_dir self))
  then (BatchFailure msg_no_history_dir, db)
  else
    match dirs disk (history_dir self) with
    | Listing items =>
        batch_done (fold_left (scan_item self (dirs disk) clock) items
                              (mkBatchState 0 0 [] [] db))
    | ListdirRaises e => (BatchFailure (msg_scan_all_failed ++ e), db)
    | NoDirectory =>
        match not_dirs disk (history_dir self) with
        | Some e => (BatchFailure (msg_scan_all_failed ++ e), db)
        | None => (BatchFailure msg_no_history_dir, db)
        end
    end.

End Service.

Import Service.

(** ** The constraints of the schema *)

Module Schema.

(** The constraints that backend/models.py declares on the three tables:
    the primary key of the records, the two unique indexes, the two
    foreign keys. *)
Definition page_key (p : OutlinePage) : pystr * Z :=
  (page_record_id p, page_index p).

Definition image_key (i : TaskImage) : pystr * Z :=
  (image_record_id i, image_index i).

Definition consistent (db : Database) : Prop :=
  NoDup (map id (history_records db))
  /\ NoDup (map page_key (outline_pages db))
  /\ NoDup (map image_key (task_images db))
  /\ (forall p, In p (outline_pages db) ->
                In (page_record_id p) (map id (history_records db)))
  /\ (forall i, In i (task_images db) ->
                In (image_record_id i) (map id (history_records db))).

End Schema.

Import Schema.

(** ** More concrete inputs *)

Module Samples.

Local Open Scope Z_scope.

(** Two records: "a" with two pages and two images stored out of order,
    "b" with one page. *)
Definition rec_a : HistoryRecord :=
  mkHistoryRecord (str "a") (str "first") (str "completed")
                  (Some (str "0.png")) (Some (str "ta"))
                  (Some (str "raw a")) 10 20.

Definition rec_b : HistoryRecord :=
  mkHistoryRecord (str "b") (str "second") (str "draft") None None None
                  30 30.

Definition db2 : Database :=
  mkDatabase [rec_a; rec_b]
             [Examples.page "a" 1 "two"; Examples.page "a" 0 "one";
              Examples.page "b" 0 "x"]
             [mkTaskImage (str "a") 1 (str "1.png");
              mkTaskImage (str "a") 0 (str "0.png")].

(** An outline of two pages, the second without an index. *)
Definition outline_c : OutlineDict :=
  mkOutlineDict (Some (Some (str "raw c")))
                (Some [mkPageDict (Some (Some 1)) (Some (Some (str "content")))
                                  (Some (Some (str "p1")));
                       mkPageDict None (Some (Some (str "cover")))
                                  (Some (Some (str "p0")))]).


Definition outline_null_content : OutlineDict :=
  mkOutlineDict None (Some [mkPageDict (Some (Some 0)) None (Some None)]).

(** A history directory with the tasks "ta" (linked to record "a"), "tx"
    (no record), an unreadable "ty" and a plain file. *)
Definition disk2 : Disk :=
  mkDisk
    (fun p =>
       if PyStr.eqb p (str "/app/history")
       then Listing [str "ta"; str "index.json"; str "tx"; str "ty"]
       else if PyStr.eqb p (str "/app/history/ta")
       then Listing [str "1.png"; str "0.png"]
       else if PyStr.eqb p (str "/app/history/tx")
       then Listing [str "0.jpg"]
       else if PyStr.eqb p (str "/app/history/ty")
       then ListdirRaises (str "denied")
       else NoDirectory)
    (fun p =>
       if PyStr.eqb p (str "/app/history/index.json")
       then Some (str "not a directory")
       else None).

End Samples.

Import Samples.

Local Open Scope Z_scope.

(** * Properties *)

(** ** Strings *)

Lemma pystr_eqb_eq (a b : pystr) : PyStr.eqb a b = true <-> a = b.
Proof.
  revert b; induction a as [|x a IH]; intros [|y b]; simpl;
    try (split; [discriminate | discriminate]); try tauto.
  rewrite andb_true_iff, N.eqb_eq, IH.
  split; [intros [-> ->]; reflexivity | intros E; inversion E; auto].
Qed.

Lemma pystr_eqb_refl (a : pystr) : PyStr.eqb a a = true.
Proof. apply pystr_eqb_eq; reflexivity. Qed.

(** The string functions on the inputs on which CPython was observed. *)

Example split_examples :
  split (str "----a-------") (str "---") = [[]; str "-a"; []; str "-"]
  /\ re_split_ignorecase (str "<page>") (str "a<PaGe>b<page><PAGE>c")
     = [str "a"; str "b"; []; str "c"]
  /\ split (str "abc") (str "---") = [str "abc"].
Proof. repeat split. Qed.

Example strip_examples :
  strip ([0x1C; 0x85; 0x3000; 32]%N ++ str "a b" ++ [32; 0x1F; 11]%N)
  = str "a b"
  /\ strip (nl ++ nl) = [].
Proof. split; reflexivity. Qed.

Example match_bracket_tag_examples :
  map match_bracket_tag
      [str "[a]b]c d"; str "[]"; str "[]]"; str "[a b]"; str "[a";
       str "[ a]"; str "x[a]"; tag_cover; (91 :: tag_cover ++ str "] x")%N]
  = [Some (str "a]b"); None; Some (str "]"); None; None; None; None; None;
     Some tag_cover].
Proof. reflexivity. Qed.

Example int_examples :
  map int
      [str "1"; str "007"; str " 5"; str "-5"; str "+5"; str "1_000";
       str "1__0"; str "_1"; str "1_"; str "x"; str ""; str "+"; str "- 5";
       str "5 "; str "+-5"; str "0_0"; [0x661; 0x662]%N; [0x1C; 0x35]%N;
       [0xA0; 0x35]%N; str "1000"; str "999"]
  = [Some 1; Some 7; Some 5; Some (-5); Some 5; Some 1000; None; None; None;
     None; None; None; None; Some 5; None; Some 0; Some 12; None; Some 5;
     Some 1000; Some 999].
Proof. vm_compute. reflexivity. Qed.

Example is_image_file_examples :
  map is_image_file
      [str "0.png"; str "1.jpg"; str "2.jpeg"; str "thumb_0.png";
       str "3.PNG"; str "notes.txt"; str ".png"; str "png"]
  = [true; true; true; false; false; false; true; false].
Proof. reflexivity. Qed.

Example os_path_join_examples :
  map (os_path_join (str "/app/history")) [str "t1"; str ".."; str "/etc"; []]
  = [str "/app/history/t1"; str "/app/history/.."; str "/etc";
     str "/app/history/"].
Proof. reflexivity. Qed.

(** ** The outline parser *)

(** Every page carries the position that its segment has among all the
    segments of the split, blank ones included. *)
Lemma parse_pages_index (raw : list pystr) :
  forall (k : Z) (p : Page),
    In p (parse_pages k raw) ->
    exists i segment,
      nth_error raw i = Some segment
      /\ content p = strip segment
      /\ index p = k + Z.of_nat i.
Proof.
  induction raw as [|segment raw IH]; intros k p Hp; simpl in Hp; [easy|].
  assert (Hrest : In p (parse_pages (k + 1) raw) ->
                  exists i s, nth_error (segment :: raw) i = Some s
                              /\ content p = strip s
                              /\ index p = k + Z.of_nat i).
  { intros H. destruct (IH _ _ H) as (i & s & Hi & Hc & Hk).
    exists (S i), s. repeat split; auto. lia. }
  destruct (truthy (strip segment)); [|auto].
  destruct Hp as [<- | Hp]; [|auto].
  exists O, segment. repeat split. simpl. lia.
Qed.

(** C1. On the text of the reindexing property (three markers, the middle
    page blank) [_parse_outline] returns two pages whose indices are 1 and
    3, the positions of their segments in the split, and not 0 and 1: the
    blank segments before them each used up an index. *)
Lemma parse_outline_blank_middle_indices :
  map index (_parse_outline outline_blank_middle) = [1; 3]
  /\ map content (_parse_outline outline_blank_middle) = [str "A"; str "B"].
Proof. split; vm_compute; reflexivity. Qed.

(** C3. A text holding the marker in upper case only is not split on it:
    the membership test ['<page>' in outline_text] is case-sensitive, so
    the text is split on the legacy marker, and the upper-case marker stays
    in the first page; the case-insensitive split on the marker would have
    given the single segment "A---B" after an empty one. *)
Lemma parse_outline_upper_marker_legacy_split :
  contains (str "<page>") outline_upper_marker = false
  /\ _parse_outline outline_upper_marker
     = [mkPage 0 (str "content") (str "<PAGE>A");
        mkPage 1 (str "content") (str "B")]
  /\ re_split_ignorecase (str "<page>") outline_upper_marker
     = [[]; str "A---B"].
Proof. repeat split; vm_compute; reflexivity. Qed.

(** ** [update_record] on concrete inputs *)

(** C7. Updating the freshly created record with the image list
    ["0.png", None, "2.png"] fails: the row with the missing file name
    violates the NOT NULL constraint, the transaction is rolled back,
    [update_record] returns [False] and no image row (and no task id) is
    stored. *)
Lemma update_record_null_filename_rolled_back :
  update_record db_new 40 (str "r2") None (Some images_with_null) None None
  = (false, db_new).
Proof. vm_compute; reflexivity. Qed.

(** ** The reconciler on concrete inputs *)

(** C9. The task id ".." is joined to the history directory as it is:
    the reconciler lists the parent directory of the history root and
    reports its image files. *)
Lemma scan_parent_directory_not_rejected :
  os_path_join (history_dir svc) (str "..") = str "/app/history/.."
  /\ scan_and_sync_task_images svc fs_parent db1 0 (str "..")
     = (Orphan (str "..") 1 [str "0.png"], db1).
Proof. split; vm_compute; reflexivity. Qed.

(** ** Lookups and row updates *)

Lemma find_other_predicate (A : Type) (p q : A -> bool) (l : list A) (x : A) :
  find p l = Some x -> q x = true -> exists y, find q l = Some y.
Proof.
  induction l as [|a l IH]; simpl; [discriminate|].
  intros Hp Hq. destruct (q a) eqn:Ea; [eauto|].
  destruct (p a); [inversion Hp; subst; congruence | auto].
Qed.

(** A record found by its task id can be fetched by its primary key. *)
Lemma query_get_of_task_record (db : Database) (tid : pystr)
      (record : HistoryRecord) :
  query_first_by_task_id db tid = Some record ->
  exists r0, query_get db (id record) = Some r0 /\ id r0 = id record.
Proof.
  intros H.
  destruct (find_other_predicate _ _
              (fun r => PyStr.eqb (id r) (id record)) _ _ H
              (pystr_eqb_refl _)) as [r0 Hr0].
  exists r0; split; [exact Hr0|].
  apply find_some in Hr0 as [_ E]. now apply pystr_eqb_eq.
Qed.

Lemma find_update_first (rid : pystr) (f : HistoryRecord -> HistoryRecord)
      (rows : list HistoryRecord) :
  (forall r, id (f r) = id r) ->
  find (fun r => PyStr.eqb (id r) rid) (update_first rid f rows)
  = option_map f (find (fun r => PyStr.eqb (id r) rid) rows).
Proof.
  intros Hid. induction rows as [|r rows IH]; simpl; [reflexivity|].
  destruct (PyStr.eqb (id r) rid) eqn:E; simpl.
  - now rewrite Hid, E.
  - now rewrite E.
Qed.

(** Changing the row of key [rid] keeps the key of the first row of task
    [tid], provided that row had key [rid] and the change neither alters
    keys nor unlinks a row from [tid]. *)
Lemma find_task_update_first (rid tid : pystr)
      (f : HistoryRecord -> HistoryRecord) (rows : list HistoryRecord) :
  (forall r, id (f r) = id r) ->
  (forall r, has_task_id tid r = true -> has_task_id tid (f r) = true) ->
  (exists r, find (has_task_id tid) rows = Some r /\ id r = rid) ->
  exists r', find (has_task_id tid) (update_first rid f rows) = Some r'
             /\ id r' = rid.
Proof.
  intros Hid Hmono. induction rows as [|x rows IH]; simpl.
  - intros (r & H & _); discriminate.
  - intros (r & H & Hr).
    destruct (has_task_id tid x) eqn:Ex.
    + inversion H; subst x; clear H.
      rewrite <- Hr, pystr_eqb_refl; simpl.
      rewrite (Hmono _ Ex). exists (f r); split; [reflexivity | apply Hid].
    + destruct (PyStr.eqb (id x) rid) eqn:Ei; simpl.
      * destruct (has_task_id tid (f x)) eqn:Ef.
        -- exists (f x); split; [reflexivity|].
           rewrite Hid. now apply pystr_eqb_eq.
        -- exists r; auto.
      * rewrite Ex. apply IH. exists r; auto.
Qed.

(** ** Flushing new rows *)

Lemma insert_images_enumerate (rid : pystr) (files : list pystr) :
  forall (table : list TaskImage) (k : Z),
    (forall j, In j table -> image_record_id j = rid -> image_index j < k) ->
    insert_images table (map (new_image rid) (enumerate k (map Some files)))
    = Some (table ++ map (stored_image rid) (enumerate k files)).
Proof.
  induction files as [|a files IH]; intros table k Hk; simpl.
  - now rewrite app_nil_r.
  - destruct (existsb _ table) eqn:E.
    + apply existsb_exists in E as (j & Hin & Hj).
      apply andb_true_iff in Hj as [Hr Hi].
      apply pystr_eqb_eq in Hr. apply Z.eqb_eq in Hi.
      specialize (Hk j Hin Hr). lia.
    + rewrite IH.
      * now rewrite <- app_assoc.
      * intros j Hin Hr. apply in_app_or in Hin as [Hin | [<- | []]].
        -- specialize (Hk j Hin Hr). lia.
        -- simpl. lia.
Qed.

Lemma all_present_map_Some (gen : list (option pystr)) :
  Forall (fun f => f <> None) gen -> exists files, gen = map Some files.
Proof.
  induction 1 as [|f gen Hf _ (files & ->)].
  - now exists [].
  - destruct f as [name|]; [|congruence]. now exists (name :: files).
Qed.

Lemma filter_out_record_images (rid : pystr) (table : list TaskImage) j :
  In j (filter (fun i => negb (PyStr.eqb (image_record_id i) rid)) table) ->
  image_record_id j <> rid.
Proof.
  intros H E. apply filter_In in H as [_ H].
  rewrite E, pystr_eqb_refl in H. discriminate.
Qed.

Lemma insert_pages_distinct (rid : pystr) (news : list PageDict) :
  forall table : list OutlinePage,
    (forall q, In q table -> page_record_id q = rid ->
               ~ In (Some (page_index q)) (map index_of news)) ->
    pages_accepted news ->
    insert_pages table (map (page_row rid) news)
    = Some (table ++ map (fun p => stored_page (page_row rid p)) news).
Proof.
  induction news as [|p news IH]; intros table Ht [Hst Hnd];
    cbn [map insert_pages].
  - now rewrite app_nil_r.
  - inversion Hnd as [|? ? Hnotin Hnd']; subst.
    inversion Hst as [|? ? [Hi Hc] Hst']; subst.
    unfold stored_page at 1. unfold index_of in Hi, Hnotin.
    cbn [page_row new_page_index new_page_content new_page_record_id
         new_page_type] in *.
    destruct (get_value (d_index p) 0) as [i|] eqn:Ei; [|congruence].
    destruct (get_value (d_content p) []) as [c|] eqn:Ec; [|congruence].
    destruct (existsb _ table) eqn:E.
    + apply existsb_exists in E as (q & Hin & Hq).
      apply andb_true_iff in Hq as [Hr Hq].
      apply pystr_eqb_eq in Hr. apply Z.eqb_eq in Hq.
      exfalso. apply (Ht q Hin Hr). left.
      unfold index_of. rewrite Ei. now f_equal.
    + rewrite IH; [now rewrite <- app_assoc | | now split].
      intros q Hin Hr Hq. apply in_app_or in Hin as [Hin | [<- | []]].
      * apply (Ht q Hin Hr). now right.
      * cbn [page_index get] in Hq. contradiction.
Qed.

(** ** The changes staged by [update_record] *)

Lemma update_first_compose (rid : pystr)
      (f g : HistoryRecord -> HistoryRecord) (rows : list HistoryRecord) :
  (forall r, id (f r) = id r) ->
  update_first rid g (update_first rid f rows)
  = update_first rid (fun r => g (f r)) rows.
Proof.
  intros Hid. induction rows as [|r rows IH]; simpl; [reflexivity|].
  destruct (PyStr.eqb (id r) rid) eqn:E; simpl.
  - now rewrite Hid, E.
  - now rewrite E, IH.
Qed.

Ltac split_arguments outline images status thumbnail :=
  destruct outline as [[? ?]|];
  destruct images as [[[?|] [[|? ?]|]]|];
  destruct status, thumbnail; cbn;
  try match goal with |- context [truthy ?t] => destruct (truthy t) end.

Lemma staged_records db now rid outline images status thumbnail :
  history_records
    (s_db (staged_changes db now rid outline images status thumbnail))
  = update_first rid (updated_record now outline images status thumbnail)
                 (history_records db).
Proof.
  unfold staged_changes, updated_record.
  split_arguments outline images status thumbnail; cbn;
    rewrite ?update_first_compose by (intros; reflexivity);
    reflexivity.
Qed.

Lemma staged_pages db now rid outline images status thumbnail :
  let s := staged_changes db now rid outline images status thumbnail in
  match outline with
  | None => outline_pages (s_db s) = outline_pages db /\ s_new_pages s = []
  | Some o =>
      outline_pages (s_db s)
      = filter (fun p => negb (PyStr.eqb (page_record_id p) rid))
               (outline_pages db)
      /\ s_new_pages s = map (page_row rid) (get (pages o) [])
  end.
Proof.
  unfold staged_changes.
  split_arguments outline images status thumbnail; cbn; split; reflexivity.
Qed.

Lemma staged_images db now rid outline images status thumbnail :
  let s := staged_changes db now rid outline images status thumbnail in
  match generated_of images with
  | [] => task_images (s_db s) = task_images db /\ s_new_images s = []
  | _ :: _ =>
      task_images (s_db s)
      = filter (fun i => negb (PyStr.eqb (image_record_id i) rid))
               (task_images db)
      /\ s_new_images s
         = map (new_image rid) (enumerate 0 (generated_of images))
  end.
Proof.
  unfold staged_changes.
  split_arguments outline images status thumbnail; cbn; split; reflexivity.
Qed.

Lemma commit_flushed (s : Session) ps ims :
  insert_pages (outline_pages (s_db s)) (s_new_pages s) = Some ps ->
  insert_images (task_images (s_db s)) (s_new_images s) = Some ims ->
  commit s = Some (mkDatabase (history_records (s_db s)) ps ims).
Proof. intros Hp Hi. unfold commit. now rewrite Hp, Hi. Qed.

(** The outcome of [update_record] whenever the record exists, every file
    name is present and the new pages have an index and a content, and
    distinct indices: the update is committed, and the three tables are
    as follows. *)
Lemma update_record_result db now rid outline images status thumbnail
      (r0 : HistoryRecord) (files : list pystr) :
  query_get db rid = Some r0 ->
  generated_of images = map Some files ->
  outline_accepted outline ->
  update_record db now rid outline images status thumbnail
  = (true,
     mkDatabase
       (update_first rid (updated_record now outline images status thumbnail)
                     (history_records db))
       (pages_after db rid outline)
       (images_after db rid files)).
Proof.
  intros Hget Hgen Hpages. unfold update_record. rewrite Hget.
  rewrite (commit_flushed _ (pages_after db rid outline)
                           (images_after db rid files)).
  - now rewrite staged_records.
  - pose proof (staged_pages db now rid outline images status thumbnail) as H.
    cbv zeta in H. unfold pages_after.
    destruct outline as [o|]; destruct H as [-> ->]; [|reflexivity].
    apply insert_pages_distinct; [|now apply Hpages].
    intros q Hq Hr. apply filter_In in Hq as [_ Hq].
    rewrite Hr, pystr_eqb_refl in Hq. discriminate.
  - pose proof (staged_images db now rid outline images status thumbnail) as H.
    cbv zeta in H. rewrite Hgen in H. unfold images_after.
    destruct files as [|a files]; cbn [map] in H; destruct H as [-> ->];
      [reflexivity|].
    apply (insert_images_enumerate rid (a :: files)).
    intros j Hj Hr. now apply filter_out_record_images in Hj.
Qed.

Lemma updated_record_id now outline images status thumbnail r :
  id (updated_record now outline images status thumbnail r) = id r.
Proof.
  unfold updated_record.
  split_arguments outline images status thumbnail; reflexivity.
Qed.

Lemma query_get_update_first db rid f pages images :
  (forall r, id (f r) = id r) ->
  query_get (mkDatabase (update_first rid f (history_records db)) pages images)
            rid
  = option_map f (query_get db rid).
Proof. intros Hid. unfold query_get; cbn. now apply find_update_first. Qed.

(** ** [update_record] and the task id *)




(** ** The reconciler with a linked record *)

(** The update that the reconciler issues is always committed. *)
Lemma reconcile_update db now tid record files status :
  query_first_by_task_id db tid = Some record ->
  let images := Some (mkImagesDict (Some tid) (Some (map Some files))) in
  update_record db now (id record) None images (Some status)
                (hd_error files)
  = (true,
     mkDatabase
       (update_first (id record)
                     (updated_record now None images (Some status)
                                     (hd_error files))
                     (history_records db))
       (outline_pages db)
       (images_after db (id record) files)).
Proof.
  intros Hq images.
  destruct (query_get_of_task_record _ _ _ Hq) as (r0 & Hr0 & _).
  apply (update_record_result db now (id record) None images (Some status)
                              (hd_error files) r0 files Hr0).
  - reflexivity.
  - discriminate.
Qed.

Lemma derive_status_cases (expected_count actual_count : Z) :
  (actual_count = 0 -> derive_status expected_count actual_count = str "draft")
  /\ (actual_count <> 0 -> actual_count >= expected_count ->
      derive_status expected_count actual_count = str "completed")
  /\ (actual_count <> 0 -> actual_count < expected_count ->
      derive_status expected_count actual_count = str "partial").
Proof.
  unfold derive_status. rewrite Z.geb_leb.
  destruct (Z.eqb_spec actual_count 0), (Z.leb_spec expected_count actual_count);
    repeat split; intros; try reflexivity; lia.
Qed.

(** The thresholds for three expected pages. *)
Lemma derive_status_three_pages :
  derive_status 3 0 = str "draft"
  /\ derive_status 3 2 = str "partial"
  /\ forall n, 3 <= n -> derive_status 3 n = str "completed".
Proof.
  repeat split; try reflexivity.
  intros n Hn. apply (derive_status_cases 3 n); lia.
Qed.

(** C4. When the task directory can be listed and a record is linked to
    the task, the reconciler reports, and stores on the record, the status
    derived from the number of pages of the record and the number of image
    files found: draft for no file, completed when the files are at least
    as many as the pages (no page included), partial otherwise. *)
Theorem reconcile_status_derivation
        (self : HistoryService) (fs : FileSystem) (db : Database) (now : Z)
        (tid : pystr) (names : list pystr) (record : HistoryRecord) :
  fs (os_path_join (history_dir self) tid) = Listing names ->
  query_first_by_task_id db tid = Some record ->
  let expected_count := pages_count db (id record) in
  let actual_count := Z.of_nat (List.length (scan_image_files names)) in
  let out := scan_and_sync_task_images self fs db now tid in
  exists status,
    fst out = Synced (id record) tid actual_count (scan_image_files names)
                     status
    /\ option_map Models.status (query_get (snd out) (id record))
       = Some status
    /\ (actual_count = 0 -> status = str "draft")
    /\ (actual_count <> 0 -> actual_count >= expected_count ->
        status = str "completed")
    /\ (actual_count <> 0 -> actual_count < expected_count ->
        status = str "partial").
Proof.
  intros Hfs Hq expected_count actual_count out.
  exists (derive_status expected_count actual_count).
  subst out. unfold scan_and_sync_task_images. rewrite Hfs, Hq. cbn [fst snd].
  split; [reflexivity|]. split; [|apply derive_status_cases].
  rewrite reconcile_update by exact Hq. cbn [snd].
  rewrite query_get_update_first by apply updated_record_id.
  destruct (query_get_of_task_record _ _ _ Hq) as (r0 & -> & _). cbn.
  destruct (truthy tid), (hd_error (scan_image_files names)); reflexivity.
Qed.

Lemma reconcile_status_derivation_witness :
  let names := [str "1.png"; str "thumb_0.png"; str "0.png"] in
  let out := scan_and_sync_task_images svc (fs_t1 names) db1 50 (str "t1") in
  exists status,
    fst out = Synced (str "r1") (str "t1") 2 [str "0.png"; str "1.png"] status
    /\ option_map Models.status (query_get (snd out) (str "r1")) = Some status
    /\ (2 = 0 -> status = str "draft")
    /\ (2 <> 0 -> 2 >= 3 -> status = str "completed")
    /\ (2 <> 0 -> 2 < 3 -> status = str "partial").
Proof.
  apply (reconcile_status_derivation svc
           (fs_t1 [str "1.png"; str "thumb_0.png"; str "0.png"])
           db1 50 (str "t1")
           [str "1.png"; str "thumb_0.png"; str "0.png"] rec1).
  - reflexivity.
  - reflexivity.
Defined.

Lemma filter_deleted_images (rid : pystr) (table : list TaskImage) :
  filter (fun i => PyStr.eqb (image_record_id i) rid)
         (filter (fun i => negb (PyStr.eqb (image_record_id i) rid)) table)
  = [].
Proof.
  induction table as [|i table IH]; [reflexivity|]. cbn.
  destruct (PyStr.eqb (image_record_id i) rid) eqn:E; cbn; [exact IH|].
  now rewrite E.
Qed.

Lemma record_images_replaced db records pages rid a files :
  record_images (mkDatabase records pages (images_after db rid (a :: files)))
                rid
  = map (stored_image rid) (enumerate 0 (a :: files)).
Proof.
  unfold record_images, images_after. cbn [task_images].
  rewrite filter_app, filter_deleted_images. cbn [app].
  apply forallb_filter_id. apply forallb_forall.
  intros i Hi. apply in_map_iff in Hi as (e & <- & _).
  apply pystr_eqb_refl.
Qed.

(** C2. When the task directory can be listed and a record is linked to
    the task: if the scan finds at least one image file, then after the
    reconciler the image rows of the record are exactly the scanned file
    names, numbered by position from 0, and its thumbnail is the first of
    them, whatever rows it had before; if the scan finds none, the image
    rows and the thumbnail of the record are what they were. *)
Theorem reconcile_images_and_thumbnail
        (self : HistoryService) (fs : FileSystem) (db : Database) (now : Z)
        (tid : pystr) (names : list pystr) (record : HistoryRecord) :
  fs (os_path_join (history_dir self) tid) = Listing names ->
  query_first_by_task_id db tid = Some record ->
  let files := scan_image_files names in
  let db' := snd (scan_and_sync_task_images self fs db now tid) in
  (files <> [] ->
   record_images db' (id record)
   = map (stored_image (id record)) (enumerate 0 files)
   /\ option_map thumbnail (query_get db' (id record))
      = Some (hd_error files))
  /\ (files = [] ->
      record_images db' (id record) = record_images db (id record)
      /\ option_map thumbnail (query_get db' (id record))
         = option_map thumbnail (query_get db (id record))).
Proof.
  intros Hfs Hq files db'. subst db'.
  unfold scan_and_sync_task_images. rewrite Hfs, Hq. cbn [snd].
  fold files. rewrite reconcile_update by exact Hq. cbn [snd].
  rewrite query_get_update_first by apply updated_record_id.
  destruct (query_get_of_task_record _ _ _ Hq) as (r0 & -> & _).
  split; intros Hfiles.
  - destruct files as [|a rest]; [congruence|]. split.
    + apply record_images_replaced.
    + cbn. destruct (truthy tid); reflexivity.
  - rewrite Hfiles. split; [reflexivity|].
    cbn. destruct (truthy tid); reflexivity.
Qed.

Lemma reconcile_images_and_thumbnail_witness :
  let names := [str "1.png"; str "thumb_0.png"; str "0.png"] in
  let files := scan_image_files names in
  let db' := snd (scan_and_sync_task_images svc (fs_t1 names) db1 50
                                            (str "t1")) in
  (files <> [] ->
   record_images db' (str "r1")
   = map (stored_image (str "r1")) (enumerate 0 files)
   /\ option_map thumbnail (query_get db' (str "r1"))
      = Some (hd_error files))
  /\ (files = [] ->
      record_images db' (str "r1") = record_images db1 (str "r1")
      /\ option_map thumbnail (query_get db' (str "r1"))
         = option_map thumbnail (query_get db1 (str "r1"))).
Proof.
  apply (reconcile_images_and_thumbnail svc
           (fs_t1 [str "1.png"; str "thumb_0.png"; str "0.png"])
           db1 50 (str "t1")
           [str "1.png"; str "thumb_0.png"; str "0.png"] rec1).
  - reflexivity.
  - reflexivity.
Defined.

(** C2, the case that fails. The record of task "t1" has one image row and
    a thumbnail; the task directory holds no image file. After the
    reconciler the row and the thumbnail are still there, whereas the
    scanned list is empty. *)
Lemma reconcile_empty_scan_keeps_images :
  let files := scan_image_files [str "thumb_0.png"; str "notes.txt"] in
  let db' := snd (scan_and_sync_task_images
                    svc (fs_t1 [str "thumb_0.png"; str "notes.txt"])
                    db1 50 (str "t1")) in
  files = []
  /\ record_images db' (str "r1") = [mkTaskImage (str "r1") 0 (str "0.png")]
  /\ query_first_by_task_id db1 (str "t1") = Some rec1
  /\ ~ (record_images db' (str "r1")
        = map (stored_image (str "r1")) (enumerate 0 files)
        /\ option_map thumbnail (query_get db' (str "r1"))
           = Some (hd_error files)).
Proof.
  vm_compute. repeat split. intros [H _]. discriminate.
Qed.

(** ** Running the reconciler again *)

Lemma updated_record_keeps_task now tid files status thumbnail r :
  has_task_id tid r = true ->
  has_task_id tid
    (updated_record now None
       (Some (mkImagesDict (Some tid) (Some (map Some files))))
       (Some status) thumbnail r) = true.
Proof.
  unfold updated_record, has_task_id. cbn.
  destruct (truthy tid), thumbnail; cbn; auto using pystr_eqb_refl.
Qed.

(** C5. The result of the reconciler run a second time, on the database
    that the first run left and with the same file system, is the result
    of the first run: same file names, same counts, same status (and same
    record, or the same failure). *)
Theorem reconcile_twice_same_result
        (self : HistoryService) (fs : FileSystem) (db : Database)
        (now1 now2 : Z) (tid : pystr) :
  let run1 := scan_and_sync_task_images self fs db now1 tid in
  fst (scan_and_sync_task_images self fs (snd run1) now2 tid) = fst run1.
Proof.
  cbv zeta. unfold scan_and_sync_task_images.
  destruct (fs (os_path_join (history_dir self) tid)) as [|e|names];
    try reflexivity.
  destruct (query_first_by_task_id db tid) as [record|] eqn:Hq; cbn [fst snd].
  - rewrite reconcile_update by exact Hq. cbn [snd].
    destruct (find_task_update_first (id record) tid
                (updated_record now1 None
                   (Some (mkImagesDict (Some tid)
                            (Some (map Some (scan_image_files names)))))
                   (Some (derive_status (pages_count db (id record))
                            (Z.of_nat (List.length (scan_image_files names)))))
                   (hd_error (scan_image_files names)))
                (history_records db))
      as (r' & Hr' & Hid).
    + intros r. apply updated_record_id.
    + intros r. apply updated_record_keeps_task.
    + exists record. split; [exact Hq | reflexivity].
    + unfold query_first_by_task_id at 1. cbn [history_records].
      rewrite Hr'. cbn [fst]. rewrite Hid. reflexivity.
  - rewrite Hq. reflexivity.
Qed.

(** ** The reconciler without a linked record *)




(** ** The order of the scanned files *)

Lemma insert_by_key_In key x l z :
  In z (insert_by_key key x l) -> z = x \/ In z l.
Proof.
  induction l as [|y l IH]; simpl.
  - intros [<- | []]; auto.
  - destruct (key x <=? key y); simpl; intros [<- | H]; auto.
    destruct (IH H); auto.
Qed.

Lemma insert_by_key_sorted key x l :
  StronglySorted (fun a b => key a <= key b) l ->
  StronglySorted (fun a b => key a <= key b) (insert_by_key key x l).
Proof.
  induction 1 as [|y l Hs IH Hy]; simpl.
  - constructor; constructor.
  - destruct (Z.leb_spec (key x) (key y)) as [Hle | Hlt].
    + constructor; [constructor; assumption|].
      constructor; [exact Hle|].
      eapply Forall_impl; [|exact Hy]. cbn; intros; lia.
    + constructor; [exact IH|].
      apply Forall_forall. intros z Hz.
      apply insert_by_key_In in Hz as [-> | Hz]; [lia|].
      now apply (proj1 (Forall_forall _ _) Hy).
Qed.

Lemma insert_by_key_perm key x l : Permutation (x :: l) (insert_by_key key x l).
Proof.
  induction l as [|y l IH]; simpl; [reflexivity|].
  destruct (key x <=? key y); [reflexivity|].
  rewrite perm_swap. now constructor.
Qed.

(** The sorted list is a rearrangement of the list. *)
Lemma sort_by_key_perm key l : Permutation l (sort_by_key key l).
Proof.
  induction l as [|x l IH]; simpl; [constructor|].
  rewrite <- insert_by_key_perm. now constructor.
Qed.

Lemma insert_by_key_same_key key k x l :
  filter (fun y => key y =? k) (insert_by_key key x l)
  = filter (fun y => key y =? k) (x :: l).
Proof.
  induction l as [|y l IH]; [reflexivity|].
  cbn [insert_by_key].
  destruct (Z.leb_spec (key x) (key y)) as [Hle | Hlt]; [reflexivity|].
  cbn [filter] in *. rewrite IH.
  destruct (Z.eqb_spec (key x) k), (Z.eqb_spec (key y) k);
    try reflexivity; lia.
Qed.

(** The sort is stable: files of equal key keep their listing order. *)
Lemma sort_by_key_stable key k l :
  filter (fun y => key y =? k) (sort_by_key key l)
  = filter (fun y => key y =? k) l.
Proof.
  induction l as [|x l IH]; [reflexivity|].
  cbn [sort_by_key]. rewrite insert_by_key_same_key.
  cbn [filter]. now rewrite IH.
Qed.

(** The sorted list has its keys in ascending order. *)
Lemma sort_by_key_sorted key l :
  StronglySorted (fun a b => key a <= key b) (sort_by_key key l).
Proof.
  induction l as [|x l IH]; simpl; [constructor|].
  now apply insert_by_key_sorted.
Qed.

Lemma strongly_sorted_nth (R : pystr -> pystr -> Prop) (l : list pystr) :
  StronglySorted R l ->
  forall i j a b,
    (i < j)%nat -> nth_error l i = Some a -> nth_error l j = Some b -> R a b.
Proof.
  induction 1 as [|x l Hs IH Hx]; intros i j a b Hij Hi Hj.
  - destruct i; discriminate.
  - destruct j as [|j]; [lia|]. cbn in Hj.
    destruct i as [|i]; cbn in Hi.
    + inversion Hi; subst a.
      apply (proj1 (Forall_forall _ _) Hx). eapply nth_error_In; eauto.
    + apply (IH i j); [lia | assumption | assumption].
Qed.

(** C8. In the list that the reconciler builds, a file name whose part
    before the first dot is not an integer stands after every file name
    whose part before the first dot is an integer below 999. *)
Theorem nonnumeric_after_indices_below_999
        (names : list pystr) (i j : nat) (f g : pystr) (n : Z) :
  nth_error (scan_image_files names) i = Some f ->
  nth_error (scan_image_files names) j = Some g ->
  int (before_first_dot f) = None ->
  int (before_first_dot g) = Some n ->
  n < 999 ->
  (j < i)%nat.
Proof.
  intros Hi Hj Hf Hg Hn.
  destruct (Nat.lt_trichotomy i j) as [Hlt | [Heq | Hgt]]; [| |exact Hgt].
  - pose proof (strongly_sorted_nth _ _ (sort_by_key_sorted get_index _)
                                    i j f g Hlt Hi Hj) as H.
    unfold get_index in H. rewrite Hf, Hg in H. lia.
  - subst j. rewrite Hi in Hj. inversion Hj; subst g. congruence.
Qed.

Lemma nonnumeric_after_indices_below_999_witness :
  let out := scan_image_files [str "x.png"; str "5.png"] in
  nth_error out 1 = Some (str "x.png")
  /\ nth_error out 0 = Some (str "5.png")
  /\ int (before_first_dot (str "x.png")) = None
  /\ int (before_first_dot (str "5.png")) = Some 5
  /\ 5 < 999
  /\ (0 < 1)%nat.
Proof.
  repeat split.
  apply (nonnumeric_after_indices_below_999
           [str "x.png"; str "5.png"] 1 0 (str "x.png") (str "5.png") 5);
    reflexivity.
Defined.

(** C8, the case that fails. Of the two files "1000.png" and "x.png" the
    second, whose prefix is no integer, is put first: its key 999 is below
    1000. *)
Lemma nonnumeric_before_index_1000 :
  let out := scan_image_files [str "1000.png"; str "x.png"] in
  out = [str "x.png"; str "1000.png"]
  /\ int (before_first_dot (str "x.png")) = None
  /\ int (before_first_dot (str "1000.png")) = Some 1000
  /\ ~ (forall i j f g n,
           nth_error out i = Some f ->
           nth_error out j = Some g ->
           int (before_first_dot f) = None ->
           int (before_first_dot g) = Some n ->
           (j < i)%nat).
Proof.
  cbv zeta. repeat split.
  intros H.
  specialize (H 0%nat 1%nat (str "x.png") (str "1000.png") 1000
                eq_refl eq_refl eq_refl eq_refl).
  lia.
Qed.

(** * Further properties *)

(** ** The key mask *)

(** X1. The mask of a key has the length of the key, and shows a
    character of the key only at one of the first four or last four
    positions of a key of more than eight characters; every other
    position holds an asterisk. *)
Theorem mask_api_key_positions (k : pystr) (i : nat) :
  List.length (_mask_api_key (Some k)) = List.length k
  /\ ((i < List.length k)%nat ->
      nth_error (_mask_api_key (Some k)) i
      = if ((8 <? List.length k) && ((i <? 4) || (List.length k - 4 <=? i)))%nat
        then nth_error k i
        else Some 42%N).
Proof.
  unfold _mask_api_key.
  destruct k as [|c k']; [split; [reflexivity | cbn; lia]|].
  cbn [truthy negb]. set (k := c :: k').
  destruct (Nat.leb_spec (List.length k) 8) as [Hle | Hgt].
  - split; [apply repeat_length|]. intros Hi.
    rewrite nth_error_repeat by exact Hi.
    destruct (Nat.ltb_spec 8 (List.length k)); [lia | reflexivity].
  - assert (Hlen : List.length (firstn 4 k) = 4%nat)
      by (rewrite length_firstn; lia).
    split.
    + rewrite !length_app, Hlen, repeat_length, length_skipn. lia.
    + intros Hi.
      destruct (Nat.ltb_spec 8 (List.length k)); [|lia]. cbn [andb].
      destruct (Nat.ltb_spec i 4) as [H4 | H4]; cbn [orb].
      * rewrite nth_error_app1 by lia. rewrite nth_error_firstn.
        destruct (Nat.ltb_spec i 4); [reflexivity | lia].
      * rewrite nth_error_app2 by lia. rewrite Hlen.
        destruct (Nat.leb_spec (List.length k - 4) i) as [Ht | Ht].
        -- rewrite nth_error_app2 by (rewrite repeat_length; lia).
           rewrite repeat_length, nth_error_skipn. f_equal. lia.
        -- rewrite nth_error_app1 by (rewrite repeat_length; lia).
           apply nth_error_repeat. lia.
Qed.

Lemma mask_api_key_positions_witness :
  List.length (_mask_api_key (Some (str "sk-abcdefghij"))) = 13%nat
  /\ nth_error (_mask_api_key (Some (str "sk-abcdefghij"))) 5 = Some 42%N
  /\ nth_error (_mask_api_key (Some (str "sk-abcdefghij"))) 10
     = Some 104%N.
Proof.
  split; [exact (proj1 (mask_api_key_positions (str "sk-abcdefghij") 5))|].
  split.
  - apply (proj2 (mask_api_key_positions (str "sk-abcdefghij") 5)).
    cbn; lia.
  - apply (proj2 (mask_api_key_positions (str "sk-abcdefghij") 10)).
    cbn; lia.
Defined.

(** ** More on the outline parser *)

Lemma dropwhile_suffix (p : N -> bool) (s : pystr) :
  exists pre, s = pre ++ dropwhile p s.
Proof.
  induction s as [|c s [pre IH]]; [now exists []|]. simpl.
  destruct (p c); [|now exists []].
  exists (c :: pre). simpl. now f_equal.
Qed.

Lemma dropwhile_fixed (p : N -> bool) (s : pystr) :
  match s with [] => True | c :: _ => p c = false end ->
  dropwhile p s = s.
Proof. destruct s as [|c s]; simpl; [reflexivity|]. now intros ->. Qed.

Lemma dropwhile_head (p : N -> bool) (s : pystr) :
  match dropwhile p s with [] => True | c :: _ => p c = false end.
Proof.
  induction s as [|c s IH]; simpl; [exact I|].
  destruct (p c) eqn:E; [exact IH | exact E].
Qed.

(** Stripping twice is stripping once. *)
Lemma strip_by_idempotent (p : N -> bool) (s : pystr) :
  strip_by p (strip_by p s) = strip_by p s.
Proof.
  unfold strip_by.
  set (s1 := dropwhile p s).
  set (t := dropwhile p (rev s1)).
  assert (Hhead : match rev t with [] => True | c :: _ => p c = false end).
  { destruct (dropwhile_suffix p (rev s1)) as [pre Hpre]. fold t in Hpre.
    assert (Hs1 : s1 = rev t ++ rev pre).
    { rewrite <- (rev_involutive s1), Hpre, rev_app_distr. reflexivity. }
    pose proof (dropwhile_head p s) as H. fold s1 in H. rewrite Hs1 in H.
    destruct (rev t); [exact I | exact H]. }
  rewrite (dropwhile_fixed p (rev t) Hhead), rev_involutive.
  now rewrite (dropwhile_fixed p t (dropwhile_head p (rev s1))).
Qed.

Lemma page_type_of_values (page_text : pystr) :
  page_type_of page_text = str "cover"
  \/ page_type_of page_text = str "content"
  \/ page_type_of page_text = str "summary".
Proof.
  unfold page_type_of, type_mapping_get.
  destruct (match_bracket_tag page_text) as [tag|]; [|auto].
  destruct (PyStr.eqb tag tag_cover); [auto|].
  destruct (PyStr.eqb tag tag_content); [auto|].
  destruct (PyStr.eqb tag tag_summary); auto.
Qed.

Lemma parse_pages_shape (raw : list pystr) :
  forall (k : Z) (p : Page),
    In p (parse_pages k raw) ->
    k <= index p
    /\ content p <> []
    /\ strip (content p) = content p
    /\ type p = page_type_of (content p).
Proof.
  induction raw as [|segment raw IH]; intros k p Hp; simpl in Hp; [easy|].
  assert (Hrest : In p (parse_pages (k + 1) raw) ->
                  k <= index p /\ content p <> []
                  /\ strip (content p) = content p
                  /\ type p = page_type_of (content p)).
  { intros H. destruct (IH _ _ H) as (H1 & H2). split; [lia | exact H2]. }
  destruct (truthy (strip segment)) eqn:E; [|auto].
  destruct Hp as [<- | Hp]; [|auto]. cbn.
  repeat split; [lia | | apply strip_by_idempotent].
  intros H. rewrite H in E. discriminate.
Qed.

(** X2. Every page that the parser returns has a content that is not
    empty and has no blank at either end, and a type among "cover",
    "content" and "summary". *)
Theorem parse_outline_pages_well_formed (outline_text : pystr) (p : Page) :
  In p (_parse_outline outline_text) ->
  content p <> []
  /\ strip (content p) = content p
  /\ (type p = str "cover" \/ type p = str "content"
      \/ type p = str "summary").
Proof.
  intros Hp. destruct (parse_pages_shape _ _ _ Hp) as (_ & H1 & H2 & H3).
  repeat split; [exact H1 | exact H2|].
  rewrite H3. apply page_type_of_values.
Qed.

Lemma parse_outline_pages_well_formed_witness :
  let p := mkPage 3 (str "content") (str "B") in
  In p (_parse_outline outline_blank_middle)
  /\ content p <> []
  /\ strip (content p) = content p
  /\ (type p = str "cover" \/ type p = str "content"
      \/ type p = str "summary").
Proof.
  assert (H : In (mkPage 3 (str "content") (str "B"))
                 (_parse_outline outline_blank_middle))
    by (vm_compute; auto).
  split; [exact H|].
  exact (parse_outline_pages_well_formed outline_blank_middle _ H).
Defined.

Lemma parse_pages_increasing (raw : list pystr) :
  forall k : Z, StronglySorted Z.lt (map index (parse_pages k raw)).
Proof.
  induction raw as [|segment raw IH]; intros k; simpl; [constructor|].
  destruct (truthy (strip segment)); [|apply IH].
  cbn [map index]. constructor; [apply IH|].
  apply Forall_forall. intros i Hi.
  apply in_map_iff in Hi as (p & <- & Hp).
  destruct (parse_pages_shape _ _ _ Hp) as [H _]. lia.
Qed.

(** X3. The indices of the pages returned are not negative and strictly
    increasing: no two pages of an outline share an index. *)
Theorem parse_outline_indices_increasing (outline_text : pystr) :
  StronglySorted Z.lt (map index (_parse_outline outline_text))
  /\ Forall (fun i => 0 <= i) (map index (_parse_outline outline_text)).
Proof.
  split; [apply parse_pages_increasing|].
  apply Forall_forall. intros i Hi.
  apply in_map_iff in Hi as (p & <- & Hp).
  now destruct (parse_pages_shape _ _ _ Hp) as [H _].
Qed.

Lemma split_go_no_separator (eqc : N -> N -> bool) (sep s : pystr) :
  forall cur,
    (forall t, (exists pre, s = pre ++ t) -> t <> [] ->
               prefix_by eqc sep t = false) ->
    split_go eqc sep 0 cur s = [rev cur ++ s].
Proof.
  induction s as [|c s IH]; intros cur H; simpl.
  - now rewrite app_nil_r.
  - rewrite (H (c :: s)); [|now exists [] | discriminate].
    rewrite IH.
    + simpl. now rewrite <- app_assoc.
    + intros t [pre ->] Ht. apply H; [|exact Ht].
      now exists (c :: pre).
Qed.

Lemma contains_false_suffix (sep s t : pystr) :
  contains sep s = false -> (exists pre, s = pre ++ t) ->
  prefix_by N.eqb sep t = false.
Proof.
  revert t. induction s as [|c s IH]; intros t Hc [pre Hpre].
  - destruct pre; [|discriminate]. simpl in Hpre. subst t. exact Hc.
  - simpl in Hc. apply orb_false_iff in Hc as [Hhere Hrest].
    destruct pre as [|c' pre]; simpl in Hpre.
    + subst t. exact Hhere.
    + inversion Hpre; subst. apply IH; [exact Hrest | now exists pre].
Qed.

(** X4. A text that holds neither the page marker nor three hyphens in a
    row gives a single page, of index 0, whose content is the whole text
    stripped; it gives no page when it is blank. *)
Theorem parse_outline_without_separator (outline_text : pystr) :
  contains (str "<page>") outline_text = false ->
  contains (str "---") outline_text = false ->
  _parse_outline outline_text
  = if truthy (strip outline_text)
    then [mkPage 0 (page_type_of (strip outline_text)) (strip outline_text)]
    else [].
Proof.
  intros Hpage Hdash. unfold _parse_outline, pages_raw. rewrite Hpage.
  unfold split. rewrite split_go_no_separator.
  - cbn [rev app parse_pages].
    destruct (truthy (strip outline_text)); reflexivity.
  - intros t Ht _. now apply (contains_false_suffix _ outline_text).
Qed.

Lemma parse_outline_without_separator_witness :
  _parse_outline (str "  just - one -- page ")
  = [mkPage 0 (str "content") (str "just - one -- page")].
Proof.
  exact (parse_outline_without_separator (str "  just - one -- page ")
                                         eq_refl eq_refl).
Defined.

Lemma takewhile_app (p : N -> bool) (a b : pystr) :
  Forall (fun c => p c = true) a ->
  takewhile p (a ++ b) = a ++ takewhile p b.
Proof.
  induction 1 as [|c a Hc _ IH]; simpl; [reflexivity|].
  now rewrite Hc, IH.
Qed.

Lemma last_bracket_end (s : pystr) :
  Forall (fun c => c <> 93%N) s ->
  last_bracket (s ++ [93%N]) = Some (List.length s).
Proof.
  induction 1 as [|c s Hc _ IH]; simpl; [reflexivity|]. now rewrite IH.
Qed.

(** X5. A page text that opens with a bracketed tag, the tag free of
    blanks and of closing brackets and followed by a blank or by nothing,
    has the type that the table gives for the tag: "cover", "content" or
    "summary" for the three known tags, "content" for any other. *)
Theorem tagged_page_type (tag rest : pystr) :
  tag <> [] ->
  Forall (fun c => isspace c = false /\ c <> 93%N) tag ->
  match rest with [] => True | c :: _ => isspace c = true end ->
  page_type_of ((91 :: tag) ++ 93 :: rest)%N = type_mapping_get tag.
Proof.
  intros Hne Htag Hrest. unfold page_type_of, match_bracket_tag.
  cbn [app].
  rewrite takewhile_app
    by (eapply Forall_impl; [|exact Htag]; cbn; intros c [-> _]; reflexivity).
  assert (Hrun : takewhile (fun c => negb (isspace c)) (93 :: rest)%N
                 = [93%N]).
  { cbn. destruct rest as [|c rest]; [reflexivity|]. cbn. now rewrite Hrest. }
  rewrite Hrun. destruct tag as [|c0 tag]; [congruence|]. cbn [app].
  inversion Htag as [|? ? _ Htag']; subst.
  rewrite last_bracket_end
    by (eapply Forall_impl; [|exact Htag']; cbn; intros c [_ H]; exact H).
  rewrite firstn_app, firstn_all, Nat.sub_diag. cbn [firstn].
  now rewrite app_nil_r.
Qed.

Lemma tagged_page_type_witness :
  page_type_of ((91 :: tag_summary) ++ 93 :: nl ++ str "the end")%N
  = str "summary".
Proof.
  apply (tagged_page_type tag_summary (nl ++ str "the end")).
  - discriminate.
  - repeat constructor; discriminate.
  - reflexivity.
Defined.

(** ** More on the scan of a task directory *)

(** X6. The scanned list holds exactly the listed names that pass the
    two tests of the loop, each as often as it is listed: sorting loses
    and adds nothing, and no name that starts with "thumb_" is kept. *)
Theorem scan_image_files_complete (names : list pystr) :
  Permutation (filter is_image_file names) (scan_image_files names)
  /\ forall f, In f (scan_image_files names) ->
               In f names
               /\ startswith f (str "thumb_") = false
               /\ (endswith f (str ".png") = true
                   \/ endswith f (str ".jpg") = true
                   \/ endswith f (str ".jpeg") = true).
Proof.
  assert (Hperm : Permutation (filter is_image_file names)
                              (scan_image_files names))
    by apply sort_by_key_perm.
  split; [exact Hperm|]. intros f Hf.
  apply (Permutation_in _ (Permutation_sym Hperm)) in Hf.
  apply filter_In in Hf as [Hin Hf]. split; [exact Hin|].
  unfold is_image_file in Hf.
  destruct (startswith f (str "thumb_")); [discriminate|].
  split; [reflexivity|].
  apply orb_true_iff in Hf as [Hf | Hf]; [|auto].
  apply orb_true_iff in Hf as [Hf | Hf]; auto.
Qed.

(** X7. Of two scanned names whose part before the first dot is an
    integer, the one that comes first in the list has the smaller or the
    same integer: the order is by number, not by spelling. *)
Theorem scan_image_files_numeric_order
        (names : list pystr) (i j : nat) (f g : pystr) (m n : Z) :
  (i < j)%nat ->
  nth_error (scan_image_files names) i = Some f ->
  nth_error (scan_image_files names) j = Some g ->
  int (before_first_dot f) = Some m ->
  int (before_first_dot g) = Some n ->
  m <= n.
Proof.
  intros Hij Hi Hj Hf Hg.
  pose proof (strongly_sorted_nth _ _ (sort_by_key_sorted get_index _)
                                  i j f g Hij Hi Hj) as H.
  unfold get_index in H. now rewrite Hf, Hg in H.
Qed.

Lemma scan_image_files_numeric_order_witness :
  scan_image_files [str "10.png"; str "2.png"] = [str "2.png"; str "10.png"]
  /\ 2 <= 10.
Proof.
  split; [reflexivity|].
  apply (scan_image_files_numeric_order
           [str "10.png"; str "2.png"] 0 1 (str "2.png") (str "10.png") 2 10);
    [lia | reflexivity | reflexivity | reflexivity | reflexivity].
Defined.

(** ** More on [update_record] *)

Lemma insert_pages_inv (news : list NewOutlinePage) :
  forall table t,
    insert_pages table news = Some t ->
    t = table ++ map stored_page news
    /\ NoDup (map page_key (map stored_page news))
    /\ (forall p q, In p (map stored_page news) -> In q table ->
                    page_key p <> page_key q)
    /\ Forall (fun p => new_page_index p <> None
                        /\ new_page_content p <> None) news.
Proof.
  induction news as [|p news IH]; intros table t H; cbn [insert_pages] in H.
  - inversion H. cbn [map]. rewrite app_nil_r.
    repeat split; [constructor | easy | constructor].
  - destruct (new_page_index p) as [i|] eqn:Ei; [|discriminate].
    destruct (new_page_content p) as [c|] eqn:Ec; [|discriminate].
    destruct (existsb _ table) eqn:E; [discriminate|].
    assert (Es : mkOutlinePage (new_page_record_id p) i
                   (match new_page_type p with
                    | Some t => t
                    | None => str "content"
                    end) c
                 = stored_page p).
    { unfold stored_page. rewrite Ei, Ec.
      destruct (new_page_type p); reflexivity. }
    rewrite Es in H.
    destruct (IH _ _ H) as (-> & Hnd & Hdis & Hst).
    assert (Hp : forall q, In q table ->
                           page_key (stored_page p) <> page_key q).
    { intros q Hq Hk. unfold page_key in Hk. inversion Hk as [[Hr Hi]].
      rewrite Ei in Hi. cbn [get] in Hi.
      assert (Hex : existsb
                      (fun q => PyStr.eqb (page_record_id q)
                                          (new_page_record_id p)
                                && (page_index q =? i)) table
                    = true).
      { apply existsb_exists. exists q. split; [exact Hq|].
        rewrite <- Hr, <- Hi, pystr_eqb_refl, Z.eqb_refl. reflexivity. }
      congruence. }
    cbn [map]. repeat split.
    + now rewrite <- app_assoc.
    + constructor; [|exact Hnd].
      intros Hin. apply in_map_iff in Hin as (q & Hk & Hq).
      apply (Hdis q (stored_page p) Hq);
        [apply in_or_app; right; now left | exact Hk].
    + intros p' q [<- | Hp'] Hq; [now apply Hp|].
      apply Hdis; [exact Hp' | apply in_or_app; now left].
    + constructor; [|exact Hst]. split; congruence.
Qed.

Lemma some_injective_nodup {A : Type} (l : list A) :
  NoDup l -> NoDup (map Some l).
Proof.
  induction 1 as [|a l Hn _ IH]; cbn [map]; constructor; [|exact IH].
  intros Hin. apply in_map_iff in Hin as (b & Hb & Hin).
  inversion Hb; subst. contradiction.
Qed.

(** The pages that the table took were acceptable. *)
Lemma inserted_pages_accepted (rid : pystr) (ps : list PageDict)
      (table t : list OutlinePage) :
  insert_pages table (map (page_row rid) ps) = Some t ->
  pages_accepted ps.
Proof.
  intros H. apply insert_pages_inv in H as (_ & Hnd & _ & Hst).
  assert (Hs : Forall storable ps).
  { apply Forall_forall. intros p Hp.
    rewrite Forall_forall in Hst.
    apply (Hst (page_row rid p)). now apply in_map. }
  split; [exact Hs|].
  rewrite !map_map in Hnd.
  assert (E : map index_of ps
              = map Some (map (fun p => get (index_of p) 0) ps)).
  { rewrite map_map. apply map_ext_in. intros p Hp.
    rewrite Forall_forall in Hs. destruct (Hs p Hp) as [Hi _].
    destruct (index_of p); [reflexivity | congruence]. }
  rewrite E. apply some_injective_nodup.
  apply (NoDup_map_inv (pair rid)). rewrite map_map. exact Hnd.
Qed.

Lemma insert_images_inv (news : list NewTaskImage) :
  forall table t,
    insert_images table news = Some t ->
    exists names,
      map new_filename news = map Some names
      /\ t = table
             ++ map (fun e => mkTaskImage (new_image_record_id (fst e))
                                          (new_image_index (fst e)) (snd e))
                    (combine news names).
Proof.
  induction news as [|i news IH]; intros table t H; simpl in H.
  - inversion H. exists []. now rewrite app_nil_r.
  - destruct (new_filename i) as [name|] eqn:En; [|discriminate].
    destruct (existsb _ table); [discriminate|].
    destruct (IH _ _ H) as (names & Hn & ->).
    exists (name :: names). cbn. rewrite En, Hn.
    split; [reflexivity | now rewrite <- app_assoc].
Qed.

Lemma enumerate_snd {A : Type} (l : list A) :
  forall k, map snd (enumerate k l) = l.
Proof. induction l as [|a l IH]; intros k; cbn; [|rewrite IH]; reflexivity. Qed.

Lemma combine_new_images (rid : pystr) (files : list pystr) :
  forall k,
    map (fun e => mkTaskImage (new_image_record_id (fst e))
                              (new_image_index (fst e)) (snd e))
        (combine (map (new_image rid) (enumerate k (map Some files))) files)
    = map (stored_image rid) (enumerate k files).
Proof.
  induction files as [|a files IH]; intros k; cbn; [reflexivity|].
  now rewrite IH.
Qed.

Lemma commit_inv (s : Session) (db' : Database) :
  commit s = Some db' ->
  history_records db' = history_records (s_db s)
  /\ insert_pages (outline_pages (s_db s)) (s_new_pages s)
     = Some (outline_pages db')
  /\ insert_images (task_images (s_db s)) (s_new_images s)
     = Some (task_images db').
Proof.
  unfold commit.
  destruct (insert_pages _ _) as [ps|]; [|discriminate].
  destruct (insert_images _ _) as [ims|]; [|discriminate].
  intros H. inversion H. repeat split.
Qed.

(** What a call of [update_record] can leave: the database as it was
    (and [False] returned), or the tables of a committed update. *)
Lemma update_record_cases db now rid outline images status thumbnail :
  let out := update_record db now rid outline images status thumbnail in
  (fst out = false /\ snd out = db
   /\ (query_get db rid = None
       \/ ~ Forall (fun f => f <> None) (generated_of images)
       \/ exists o, outline = Some o
                    /\ ~ pages_accepted (get (pages o) [])))
  \/ (exists r0 files,
         query_get db rid = Some r0
         /\ generated_of images = map Some files
         /\ outline_accepted outline
         /\ out = (true,
                   mkDatabase
                     (update_first rid
                        (updated_record now outline images status thumbnail)
                        (history_records db))
                     (pages_after db rid outline)
                     (images_after db rid files))).
Proof.
  cbv zeta. unfold update_record.
  destruct (query_get db rid) as [r0|] eqn:Hget; [|left; auto].
  destruct (commit _) as [db'|] eqn:Hc.
  - right. destruct (commit_inv _ _ Hc) as (_ & Hp & Hi).
    pose proof (staged_pages db now rid outline images status thumbnail) as Sp.
    pose proof (staged_images db now rid outline images status thumbnail)
      as Si.
    cbv zeta in Sp, Si.
    assert (Hnd : outline_accepted outline).
    { intros o ->. destruct Sp as [Sp1 Sp2]. rewrite Sp1, Sp2 in Hp.
      now apply inserted_pages_accepted in Hp. }
    assert (Hf : exists files, generated_of images = map Some files).
    { destruct (generated_of images) as [|g gen] eqn:Eg; [now exists []|].
      destruct Si as [Si1 Si2]. rewrite Si1, Si2 in Hi.
      apply insert_images_inv in Hi as (names & Hn & _).
      exists names. rewrite <- Hn, map_map. cbn [new_image new_filename].
      symmetry. apply (enumerate_snd (g :: gen)). }
    destruct Hf as [files Hf]. exists r0, files.
    split; [reflexivity | split; [exact Hf | split; [exact Hnd|]]].
    pose proof (update_record_result db now rid outline images status
                                     thumbnail r0 files Hget Hf Hnd) as R.
    unfold update_record in R. rewrite Hget, Hc in R. exact R.
  - left. repeat split. right.
    destruct (Forall_dec (fun f : option pystr => f <> None)) with
      (l := generated_of images) as [Hall | Hnot];
      [intros [x|]; [left; discriminate | right; intros H; now apply H]
      | | left; exact Hnot].
    right.
    destruct outline as [o|].
    + exists o. split; [reflexivity|]. intros Hnd.
      destruct (all_present_map_Some _ Hall) as [files Hf].
      pose proof (update_record_result db now rid (Some o) images status
                                       thumbnail r0 files Hget Hf) as R.
      unfold update_record in R. rewrite Hget, Hc in R.
      specialize (R (fun o' E => ltac:(inversion E; subst; exact Hnd))).
      discriminate.
    + exfalso.
      destruct (all_present_map_Some _ Hall) as [files Hf].
      pose proof (update_record_result db now rid None images status
                                       thumbnail r0 files Hget Hf) as R.
      unfold update_record in R. rewrite Hget, Hc in R.
      specialize (R (fun o' E => ltac:(discriminate E))).
      discriminate.
Qed.

Lemma map_Some_all_present (files : list pystr) :
  Forall (fun f : option pystr => f <> None) (map Some files).
Proof. induction files; constructor; [discriminate | assumption]. Qed.

(** X8. [update_record] returns [True] exactly when the record exists,
    no entry of the "generated" list is [None] and, if an outline is
    passed, each of its pages has an index and a content other than
    [None] (a missing key counting as 0 and as the empty string) and the
    indices are pairwise distinct. *)
Theorem update_record_succeeds_iff
        (db : Database) (now : Z) (rid : pystr)
        (outline : option OutlineDict) (images : option ImagesDict)
        (status thumbnail : option pystr) :
  fst (update_record db now rid outline images status thumbnail) = true
  <-> (query_get db rid <> None
       /\ Forall (fun f => f <> None) (generated_of images)
       /\ outline_accepted outline).
Proof.
  split.
  - intros H.
    destruct (update_record_cases db now rid outline images status thumbnail)
      as [(Hf & _) | (r0 & files & Hget & Hgen & Hnd & _)]; [congruence|].
    split; [congruence | split; [|exact Hnd]].
    rewrite Hgen. apply map_Some_all_present.
  - intros (Hget & Hall & Hnd).
    destruct (query_get db rid) as [r0|] eqn:E; [|congruence].
    destruct (all_present_map_Some _ Hall) as [files Hf].
    now rewrite (update_record_result db now rid outline images status
                                      thumbnail r0 files E Hf Hnd).
Qed.

(** A page whose content is [None] breaks NOT NULL and the update is
    rolled back; a page whose type is [None] is stored with the default
    of the column. *)
Example update_record_none_in_page :
  update_record db_new 40 (str "r2") (Some outline_null_content)
                None None None
  = (false, db_new)
  /\ record_pages
       (snd (update_record db_new 40 (str "r2")
               (Some (mkOutlineDict None
                        (Some [mkPageDict (Some (Some 3)) (Some None)
                                          (Some (Some (str "x")))])))
               None None None))
       (str "r2")
     = [mkOutlinePage (str "r2") 3 (str "content") (str "x")].
Proof. split; vm_compute; reflexivity. Qed.

Lemma find_update_first_other (rid rid' : pystr)
      (f : HistoryRecord -> HistoryRecord) (rows : list HistoryRecord) :
  rid' <> rid ->
  (forall r, id (f r) = id r) ->
  find (fun r => PyStr.eqb (id r) rid') (update_first rid f rows)
  = find (fun r => PyStr.eqb (id r) rid') rows.
Proof.
  intros Hne Hid. induction rows as [|r rows IH]; simpl; [reflexivity|].
  destruct (PyStr.eqb (id r) rid) eqn:E; simpl.
  - rewrite Hid. apply pystr_eqb_eq in E.
    destruct (PyStr.eqb (id r) rid') eqn:E'; [|reflexivity].
    apply pystr_eqb_eq in E'. congruence.
  - now rewrite IH.
Qed.

Lemma filter_filter_implied {A : Type} (p q : A -> bool) (l : list A) :
  (forall x, p x = true -> q x = true) ->
  filter p (filter q l) = filter p l.
Proof.
  intros H. induction l as [|x l IH]; simpl; [reflexivity|].
  destruct (q x) eqn:Eq; simpl.
  - now rewrite IH.
  - destruct (p x) eqn:Ep; [|exact IH]. rewrite (H x Ep) in Eq. discriminate.
Qed.

Lemma filter_none {A : Type} (p : A -> bool) (l : list A) :
  (forall x, In x l -> p x = false) -> filter p l = [].
Proof.
  induction l as [|x l IH]; intros H; simpl; [reflexivity|].
  rewrite (H x (or_introl eq_refl)). apply IH. intros y Hy. apply H. now right.
Qed.

Lemma pystr_eqb_neq (a b : pystr) : a <> b -> PyStr.eqb a b = false.
Proof.
  intros H. destruct (PyStr.eqb a b) eqn:E; [|reflexivity].
  apply pystr_eqb_eq in E. contradiction.
Qed.

Lemma record_pages_after_other db records images rid rid' outline :
  rid' <> rid ->
  record_pages (mkDatabase records (pages_after db rid outline) images) rid'
  = record_pages db rid'.
Proof.
  intros Hne. unfold record_pages, pages_after. cbn [outline_pages].
  destruct outline as [o|]; [|reflexivity].
  rewrite filter_app, filter_filter_implied,
    (filter_none _ (map (fun p => stored_page (page_row rid p))
                        (get (pages o) []))).
  - apply app_nil_r.
  - intros p Hp. apply in_map_iff in Hp as (d & <- & _). cbn.
    apply pystr_eqb_neq. congruence.
  - intros p Hp. apply pystr_eqb_eq in Hp. rewrite Hp.
    now rewrite pystr_eqb_neq.
Qed.

Lemma record_images_after_other db records pages rid rid' files :
  rid' <> rid ->
  record_images (mkDatabase records pages (images_after db rid files)) rid'
  = record_images db rid'.
Proof.
  intros Hne. unfold record_images, images_after. cbn [task_images].
  destruct files as [|a files]; [reflexivity|].
  rewrite filter_app, filter_filter_implied,
    (filter_none _ (map (stored_image rid) (enumerate 0 (a :: files)))).
  - apply app_nil_r.
  - intros i Hi. apply in_map_iff in Hi as (e & <- & _). cbn.
    apply pystr_eqb_neq. congruence.
  - intros i Hi. apply pystr_eqb_eq in Hi. rewrite Hi.
    now rewrite pystr_eqb_neq.
Qed.

(** X9. Whatever its arguments and its outcome, [update_record] on one
    record leaves what [get_record] returns for every other record as it
    was. *)
Theorem update_record_other_records
        (db : Database) (now : Z) (rid rid' : pystr)
        (outline : option OutlineDict) (images : option ImagesDict)
        (status thumbnail : option pystr) :
  rid' <> rid ->
  get_record (snd (update_record db now rid outline images status thumbnail))
             rid'
  = get_record db rid'.
Proof.
  intros Hne.
  destruct (update_record_cases db now rid outline images status thumbnail)
    as [(_ & -> & _) | (r0 & files & _ & _ & _ & ->)]; [reflexivity|].
  cbn [snd]. unfold get_record, query_get. cbn [history_records].
  rewrite find_update_first_other
    by (try exact Hne; intros; apply updated_record_id).
  destruct (find _ (history_records db)) as [r|] eqn:E; [|reflexivity].
  apply find_some in E as [_ E]. apply pystr_eqb_eq in E.
  unfold to_full_dict. rewrite E.
  now rewrite record_pages_after_other, record_images_after_other.
Qed.

Lemma update_record_other_records_witness :
  get_record (snd (update_record db2 40 (str "a") (Some outline_c)
                                 (Some images_plain) (Some (str "partial"))
                                 None))
             (str "b")
  = get_record db2 (str "b").
Proof.
  apply (update_record_other_records db2 40 (str "a") (str "b")).
  discriminate.
Defined.

(** X10. An update whose images dict is missing, or has no "generated"
    list or an empty one, leaves the whole image table as it was: the
    images of a record cannot be cleared through [update_record]. *)
Theorem update_record_empty_generated_keeps_images
        (db : Database) (now : Z) (rid : pystr)
        (outline : option OutlineDict) (images : option ImagesDict)
        (status thumbnail : option pystr) :
  generated_of images = [] ->
  task_images (snd (update_record db now rid outline images status thumbnail))
  = task_images db.
Proof.
  intros Hgen.
  destruct (update_record_cases db now rid outline images status thumbnail)
    as [(_ & -> & _) | (r0 & files & _ & Hf & _ & ->)]; [reflexivity|].
  cbn. rewrite Hgen in Hf. destruct files; [reflexivity | discriminate].
Qed.

Lemma update_record_empty_generated_keeps_images_witness :
  task_images
    (snd (update_record db1 40 (str "r1") None
                        (Some (mkImagesDict (Some (str "t9")) (Some [])))
                        (Some (str "draft")) None))
  = task_images db1.
Proof.
  apply (update_record_empty_generated_keeps_images db1 40 (str "r1")).
  reflexivity.
Defined.

Lemma record_pages_replaced db records images rid o :
  record_pages (mkDatabase records (pages_after db rid (Some o)) images) rid
  = map (fun p => stored_page (page_row rid p)) (get (pages o) []).
Proof.
  unfold record_pages, pages_after. cbn [outline_pages].
  rewrite filter_app, (filter_none _ (filter _ (outline_pages db))).
  - cbn [app]. apply forallb_filter_id. apply forallb_forall.
    intros p Hp. apply in_map_iff in Hp as (d & <- & _). apply pystr_eqb_refl.
  - intros p Hp. apply filter_In in Hp as [_ Hp].
    now apply negb_true_iff in Hp.
Qed.

(** X11. When an update with an outline is committed, the pages stored
    for the record are exactly the pages of the outline, in the order
    given, each with the defaults of its missing keys (and with the type
    'content' where the type is [None]); the pages the record had before
    are gone, and the raw text is the one passed. *)
Theorem update_record_replaces_pages
        (db : Database) (now : Z) (rid : pystr) (o : OutlineDict)
        (images : option ImagesDict) (status thumbnail : option pystr) :
  fst (update_record db now rid (Some o) images status thumbnail) = true ->
  let db' := snd (update_record db now rid (Some o) images status
                                thumbnail) in
  record_pages db' rid
  = map (fun p => stored_page (page_row rid p)) (get (pages o) [])
  /\ option_map outline_text (query_get db' rid)
     = Some (get_value (raw o) []).
Proof.
  intros H db'. subst db'.
  destruct (update_record_cases db now rid (Some o) images status thumbnail)
    as [(Hf & _) | (r0 & files & Hget & _ & _ & R)]; [congruence|].
  rewrite R. cbn [snd]. split; [apply record_pages_replaced|].
  rewrite query_get_update_first by apply updated_record_id.
  rewrite Hget. cbn.
  destruct images as [[[t|] ?]|], status, thumbnail; cbn;
    try destruct (truthy t); reflexivity.
Qed.

Lemma update_record_replaces_pages_witness :
  let o := mkOutlineDict (Some (Some (str "new")))
             (Some [mkPageDict (Some (Some 0)) (Some (Some (str "cover")))
                               (Some (Some (str "x")));
                    mkPageDict (Some (Some 1)) None None]) in
  let db' := snd (update_record db1 40 (str "r1") (Some o) None None None) in
  record_pages db' (str "r1")
  = [mkOutlinePage (str "r1") 0 (str "cover") (str "x");
     mkOutlinePage (str "r1") 1 (str "content") []]
  /\ option_map outline_text (query_get db' (str "r1"))
     = Some (Some (str "new")).
Proof.
  apply (update_record_replaces_pages db1 40 (str "r1")
           (mkOutlineDict (Some (Some (str "new")))
              (Some [mkPageDict (Some (Some 0)) (Some (Some (str "cover")))
                                (Some (Some (str "x")));
                     mkPageDict (Some (Some 1)) None None]))
           None None None).
  reflexivity.
Defined.

(** ** The constraints of the schema are kept *)

Lemma NoDup_map_filter {A B : Type} (k : A -> B) (p : A -> bool)
      (l : list A) :
  NoDup (map k l) -> NoDup (map k (filter p l)).
Proof.
  induction l as [|x l IH]; simpl; [auto|]. intros H.
  inversion H as [|? ? Hx Hl]; subst.
  destruct (p x); [|auto]. simpl. constructor; [|auto].
  intros Hin. apply Hx. apply in_map_iff in Hin as (y & Hy & Hin).
  apply filter_In in Hin as [Hin _]. apply in_map_iff. eauto.
Qed.

Lemma map_id_update_first (rid : pystr)
      (f : HistoryRecord -> HistoryRecord) (rows : list HistoryRecord) :
  (forall r, id (f r) = id r) ->
  map id (update_first rid f rows) = map id rows.
Proof.
  intros Hid. induction rows as [|r rows IH]; simpl; [reflexivity|].
  destruct (PyStr.eqb (id r) rid); simpl; [now rewrite Hid | now rewrite IH].
Qed.

Lemma enumerate_lower {A : Type} (l : list A) :
  forall k e, In e (enumerate k l) -> k <= fst e.
Proof.
  induction l as [|a l IH]; intros k e H; simpl in H; [easy|].
  destruct H as [<- | H]; [simpl; lia|]. apply IH in H. lia.
Qed.

Lemma enumerate_keys_nodup (rid : pystr) (files : list pystr) :
  forall k,
    NoDup (map image_key (map (stored_image rid) (enumerate k files))).
Proof.
  induction files as [|a files IH]; intros k; cbn; constructor; [|apply IH].
  intros H. apply in_map_iff in H as (i & Hk & Hi).
  apply in_map_iff in Hi as (e & <- & He).
  apply enumerate_lower in He. cbn in Hk. inversion Hk. lia.
Qed.

Lemma page_rows_nodup (rid : pystr) (ps : list PageDict) :
  pages_accepted ps ->
  NoDup (map page_key (map (fun p => stored_page (page_row rid p)) ps)).
Proof.
  intros [Hst Hnd].
  induction ps as [|p ps IH]; cbn [map]; [constructor|].
  inversion Hnd as [|? ? Hp Hps]; subst.
  inversion Hst as [|? ? [Hi _] Hst']; subst.
  constructor; [|auto].
  intros Hin. apply Hp. apply in_map_iff in Hin as (q & Hk & Hq).
  apply in_map_iff in Hq as (d & <- & Hd).
  rewrite Forall_forall in Hst'. destruct (Hst' d Hd) as [Hid _].
  unfold page_key, stored_page, index_of in *.
  cbn [page_row new_page_index page_index page_record_id] in Hk.
  apply in_map_iff. exists d. split; [|exact Hd].
  destruct (get_value (d_index d) 0), (get_value (d_index p) 0);
    try congruence.
  cbn [get] in Hk. inversion Hk. reflexivity.
Qed.

Lemma query_get_in (db : Database) (rid : pystr) (r : HistoryRecord) :
  query_get db rid = Some r -> In rid (map id (history_records db)).
Proof.
  intros H. apply find_some in H as [Hin E]. apply pystr_eqb_eq in E.
  rewrite <- E. now apply in_map.
Qed.

(** X12. [update_record] keeps the constraints of the schema: if the
    ids of the records are distinct, the (record, index) pairs of the
    pages and of the images are distinct and every page and image belongs
    to a record, the same holds after the call, whatever its arguments
    and its outcome. *)
Theorem update_record_keeps_consistency
        (db : Database) (now : Z) (rid : pystr)
        (outline : option OutlineDict) (images : option ImagesDict)
        (status thumbnail : option pystr) :
  consistent db ->
  consistent (snd (update_record db now rid outline images status thumbnail)).
Proof.
  intros (Hpk & Hup & Hui & Hfp & Hfi).
  destruct (update_record_cases db now rid outline images status thumbnail)
    as [(_ & -> & _) | (r0 & files & Hget & _ & Hnd & ->)];
    [repeat split; assumption|].
  cbn [snd]. apply query_get_in in Hget.
  unfold consistent. cbn [history_records outline_pages task_images].
  rewrite map_id_update_first by (intros; apply updated_record_id).
  repeat split.
  - exact Hpk.
  - unfold pages_after. destruct outline as [o|]; [|exact Hup].
    rewrite map_app. apply NoDup_app.
    + now apply NoDup_map_filter.
    + apply page_rows_nodup. now apply Hnd.
    + intros k Hk Hk'.
      apply in_map_iff in Hk as (p & <- & Hp).
      apply filter_In in Hp as [_ Hp].
      apply in_map_iff in Hk' as (q & Hq & Hq').
      apply in_map_iff in Hq' as (d & <- & _). cbn in Hq.
      inversion Hq as [[Hr Hi]]. rewrite <- Hr, pystr_eqb_refl in Hp.
      discriminate.
  - unfold images_after. destruct files as [|a files]; [exact Hui|].
    rewrite map_app. apply NoDup_app.
    + now apply NoDup_map_filter.
    + apply enumerate_keys_nodup.
    + intros k Hk Hk'.
      apply in_map_iff in Hk as (i & <- & Hi).
      apply filter_In in Hi as [_ Hi].
      apply in_map_iff in Hk' as (j & Hj & Hj').
      apply in_map_iff in Hj' as (e & <- & _). cbn in Hj.
      inversion Hj as [[Hr Hx]]. rewrite <- Hr, pystr_eqb_refl in Hi.
      discriminate.
  - intros p Hp. unfold pages_after in Hp.
    destruct outline as [o|]; [|auto].
    apply in_app_or in Hp as [Hp | Hp].
    + apply filter_In in Hp as [Hp _]. auto.
    + apply in_map_iff in Hp as (d & <- & _). exact Hget.
  - intros i Hi. unfold images_after in Hi.
    destruct files as [|a files]; [auto|].
    apply in_app_or in Hi as [Hi | Hi].
    + apply filter_In in Hi as [Hi _]. auto.
    + apply in_map_iff in Hi as (e & <- & _). exact Hget.
Qed.

Ltac absurd_membership :=
  cbn; intros H;
  repeat (destruct H as [H | H]; [discriminate H|]); exact H.

Ltac sample_consistent :=
  unfold consistent; cbn;
  repeat split;
  match goal with
  | |- NoDup _ =>
      repeat (apply NoDup_cons; [absurd_membership|]); apply NoDup_nil
  | |- _ =>
      let x := fresh in
      let H := fresh in
      intros x H;
      repeat (destruct H as [<- | H]; [cbn; tauto|]); contradiction
  end.

Lemma db2_consistent : consistent db2.
Proof. sample_consistent. Qed.

Lemma update_record_keeps_consistency_witness :
  consistent db2
  /\ consistent (snd (update_record db2 40 (str "a") (Some outline_c)
                                    (Some images_plain) None None)).
Proof.
  split; [exact db2_consistent|].
  apply (update_record_keeps_consistency db2 40 (str "a")).
  exact db2_consistent.
Defined.

(** ** [create_record], [get_record] and [delete_record] *)

Lemma existsb_id_false (rows : list HistoryRecord) (rid : pystr) :
  existsb (fun q => PyStr.eqb (id q) rid) rows = false
  <-> ~ In rid (map id rows).
Proof.
  split.
  - intros E Hin. apply in_map_iff in Hin as (r & <- & Hr).
    assert (existsb (fun q => PyStr.eqb (id q) (id r)) rows = true)
      by (apply existsb_exists; exists r; split;
          [exact Hr | apply pystr_eqb_refl]).
    congruence.
  - intros Hn. destruct (existsb _ rows) eqn:E; [|reflexivity].
    apply existsb_exists in E as (r & Hr & E). apply pystr_eqb_eq in E.
    exfalso. apply Hn. rewrite <- E. now apply in_map.
Qed.

Lemma find_absent (rows : list HistoryRecord) (rid : pystr) :
  ~ In rid (map id rows) ->
  find (fun r => PyStr.eqb (id r) rid) rows = None.
Proof.
  intros Hn. destruct (find _ rows) as [r|] eqn:E; [|reflexivity].
  apply find_some in E as [Hr E]. apply pystr_eqb_eq in E.
  exfalso. apply Hn. rewrite <- E. now apply in_map.
Qed.

Lemma find_app_rows (p : HistoryRecord -> bool) (a b : list HistoryRecord) :
  find p (a ++ b) = match find p a with Some r => Some r | None => find p b end.
Proof.
  induction a as [|x a IH]; simpl; [reflexivity|]. now destruct (p x).
Qed.

(** No page and no image of a consistent database belongs to an id that
    no record has. *)
Lemma no_rows_of_absent_record (db : Database) (rid : pystr) :
  consistent db -> ~ In rid (map id (history_records db)) ->
  record_pages db rid = [] /\ record_images db rid = [].
Proof.
  intros (_ & _ & _ & Hfp & Hfi) Hn. split; apply filter_none.
  - intros p Hp. apply pystr_eqb_neq. intros E. apply Hn.
    rewrite <- E. now apply Hfp.
  - intros i Hi. apply pystr_eqb_neq. intros E. apply Hn.
    rewrite <- E. now apply Hfi.
Qed.

(** X13. On a consistent database [create_record] succeeds exactly when
    the new id is not the id of a record, each page of the outline has
    an index and a content other than [None] (a missing key counting as
    0 and as the empty string) and the indices are pairwise distinct;
    otherwise the commit fails and the exception is raised. *)
Theorem create_record_succeeds_iff
        (db : Database) (now : Z) (uuid topic : pystr)
        (outline : OutlineDict) (tid : option pystr) :
  consistent db ->
  (create_record db now uuid topic outline tid <> None
   <-> ~ In uuid (map id (history_records db))
       /\ pages_accepted (get (pages outline) [])).
Proof.
  intros Hc. unfold create_record, insert_record. cbn [id].
  split.
  - destruct (existsb _ (history_records db)) eqn:E; [congruence|].
    apply existsb_id_false in E. intros H. split; [exact E|].
    destruct (insert_pages _ _) as [t|] eqn:Ei; [|congruence].
    now apply inserted_pages_accepted in Ei.
  - intros [Hn Hnd]. rewrite (proj2 (existsb_id_false _ _) Hn).
    rewrite insert_pages_distinct; [discriminate | | exact Hnd].
    intros q Hq Hr. exfalso. apply Hn. rewrite <- Hr.
    destruct Hc as (_ & _ & _ & Hfp & _). now apply Hfp.
Qed.

Lemma create_record_succeeds_iff_witness :
  create_record db2 50 (str "c") (str "third") outline_c None <> None.
Proof.
  apply (create_record_succeeds_iff db2 50 (str "c") (str "third") outline_c
                                    None db2_consistent).
  split; [absurd_membership|]. split.
  - repeat constructor; discriminate.
  - repeat (apply NoDup_cons; [absurd_membership|]); apply NoDup_nil.
Defined.

(** X14. After a successful [create_record] on a consistent database,
    [get_record] of the new id returns the record as created: the title,
    the status "draft", no thumbnail, both dates equal to the time of
    creation, the raw text and the task id passed (the empty string for
    a raw text of [None]), the pages of the outline sorted by index, and
    no image; and it returns for every other id what it returned
    before. *)
Theorem create_record_then_get_record
        (db db' : Database) (now : Z) (uuid rid topic : pystr)
        (outline : OutlineDict) (tid : option pystr) :
  consistent db ->
  create_record db now uuid topic outline tid = Some (rid, db') ->
  rid = uuid
  /\ get_record db' uuid
     = Some (mkFullDict uuid topic (str "draft") None now now
               (get (get_value (raw outline) []) [])
               (map to_dict
                    (order_by page_index
                              (map (fun p => stored_page (page_row uuid p))
                                   (get (pages outline) []))))
               tid [])
  /\ forall other, other <> uuid ->
                   get_record db' other = get_record db other.
Proof.
  intros Hc H. unfold create_record, insert_record in H. cbn [id] in H.
  destruct (existsb _ (history_records db)) eqn:E; [discriminate|].
  apply existsb_id_false in E.
  destruct (insert_pages _ _) as [t|] eqn:Ei; [|discriminate].
  apply insert_pages_inv in Ei as (-> & _ & _).
  rewrite map_map in H.
  inversion H; subst rid db'; clear H.
  destruct (no_rows_of_absent_record db uuid Hc E) as [Hp Hi].
  split; [reflexivity|]. split.
  - unfold get_record, query_get. cbn [history_records].
    rewrite find_app_rows, (find_absent _ _ E). cbn [find id].
    rewrite pystr_eqb_refl. f_equal. unfold to_full_dict. cbn.
    f_equal.
    + destruct (raw outline) as [[[|c t]|]|]; reflexivity.
    + unfold record_pages in *. cbn [outline_pages].
      rewrite filter_app, Hp. cbn [app].
      rewrite forallb_filter_id; [reflexivity|].
      apply forallb_forall. intros p Hin.
      apply in_map_iff in Hin as (d & <- & _). apply pystr_eqb_refl.
    + unfold record_images in *. cbn [task_images]. now rewrite Hi.
  - intros other Hne. unfold get_record, query_get. cbn [history_records].
    rewrite find_app_rows. cbn [find id].
    rewrite (pystr_eqb_neq uuid other) by congruence.
    destruct (find _ (history_records db)) as [r|] eqn:Ef; [|reflexivity].
    apply find_some in Ef as [_ Ef]. apply pystr_eqb_eq in Ef.
    unfold to_full_dict, record_pages, record_images.
    cbn [outline_pages task_images].
    rewrite filter_app,
      (filter_none _ (map (fun p => stored_page (page_row uuid p)) _)).
    + now rewrite app_nil_r.
    + intros p Hin. apply in_map_iff in Hin as (d & <- & _). cbn.
      apply pystr_eqb_neq. congruence.
Qed.

Lemma create_record_then_get_record_witness :
  exists db',
    consistent db2
    /\ create_record db2 50 (str "c") (str "third") outline_c
                     (Some (str "tc")) = Some (str "c", db')
    /\ get_record db' (str "c")
       = Some (mkFullDict (str "c") (str "third") (str "draft") None 50 50
                 (str "raw c")
                 [mkPage 0 (str "cover") (str "p0");
                  mkPage 1 (str "content") (str "p1")]
                 (Some (str "tc")) [])
    /\ get_record db' (str "a") = get_record db2 (str "a").
Proof.
  destruct (create_record db2 50 (str "c") (str "third") outline_c
                          (Some (str "tc"))) as [[rid db']|] eqn:E;
    [|discriminate E].
  assert (Hrid : rid = str "c") by (vm_compute in E; now inversion E).
  subst rid. exists db'.
  destruct (create_record_then_get_record
              db2 db' 50 (str "c") (str "c") (str "third") outline_c
              (Some (str "tc")) db2_consistent E) as (_ & Hget & Hother).
  split; [exact db2_consistent|]. split; [reflexivity|].
  split; [exact Hget|]. apply Hother. discriminate.
Defined.

(** X15. A successful [create_record] keeps the constraints of the
    schema. *)
Theorem create_record_keeps_consistency
        (db db' : Database) (now : Z) (uuid rid topic : pystr)
        (outline : OutlineDict) (tid : option pystr) :
  consistent db ->
  create_record db now uuid topic outline tid = Some (rid, db') ->
  consistent db'.
Proof.
  intros (Hpk & Hup & Hui & Hfp & Hfi) H.
  unfold create_record, insert_record in H. cbn [id] in H.
  destruct (existsb _ (history_records db)) eqn:E; [discriminate|].
  apply existsb_id_false in E.
  destruct (insert_pages _ _) as [t|] eqn:Ei; [|discriminate].
  apply insert_pages_inv in Ei as (-> & Hnd & Hdis & _).
  inversion H; subst rid db'; clear H.
  unfold consistent. cbn [history_records outline_pages task_images].
  rewrite !map_app. cbn [map id].
  repeat split.
  - apply NoDup_app; [exact Hpk | repeat constructor; easy|].
    intros x Hx [<- | []]. contradiction.
  - apply NoDup_app; [exact Hup | exact Hnd|].
    intros k Hk Hk'.
    apply in_map_iff in Hk as (q & <- & Hq).
    apply in_map_iff in Hk' as (p & Hpq & Hp).
    now apply (Hdis p q Hp Hq).
  - exact Hui.
  - intros p Hp. apply in_or_app. apply in_app_or in Hp as [Hp | Hp].
    + left. now apply Hfp.
    + right. apply in_map_iff in Hp as (n & <- & Hn).
      apply in_map_iff in Hn as (d & <- & _). now left.
  - intros i Hi. apply in_or_app. left. now apply Hfi.
Qed.

Lemma create_record_keeps_consistency_witness :
  exists db',
    create_record db2 50 (str "c") (str "third") outline_c None
    = Some (str "c", db')
    /\ consistent db'.
Proof.
  destruct (create_record db2 50 (str "c") (str "third") outline_c None)
    as [[rid db']|] eqn:E; [|discriminate E].
  assert (Hrid : rid = str "c") by (vm_compute in E; now inversion E).
  subst rid. exists db'. split; [reflexivity|].
  exact (create_record_keeps_consistency
           db2 db' 50 (str "c") (str "c") (str "third") outline_c None
           db2_consistent E).
Defined.

Lemma find_filter_implied (p q : HistoryRecord -> bool)
      (rows : list HistoryRecord) :
  (forall x, p x = true -> q x = true) ->
  find p (filter q rows) = find p rows.
Proof.
  intros H. induction rows as [|x rows IH]; simpl; [reflexivity|].
  destruct (q x) eqn:Eq; simpl.
  - now rewrite IH.
  - destruct (p x) eqn:Ep; [|exact IH]. rewrite (H x Ep) in Eq. discriminate.
Qed.

(** X16. [delete_record] of an existing record returns [True]; after
    it [get_record] of that id returns nothing, no page and no image of
    the record is left, and [get_record] of every other id returns what
    it returned before. *)
Theorem delete_record_removes_record
        (self : HistoryService) (fs : FileSystem) (db : Database)
        (rid : pystr) (r : HistoryRecord) :
  query_get db rid = Some r ->
  let out := delete_record self fs db rid in
  let db' := snd (fst out) in
  fst (fst out) = true
  /\ get_record db' rid = None
  /\ record_pages db' rid = []
  /\ record_images db' rid = []
  /\ forall other, other <> rid ->
                   get_record db' other = get_record db other.
Proof.
  intros Hget. cbv zeta. unfold delete_record. rewrite Hget. cbn [fst snd].
  split; [reflexivity|]. split; [|split; [|split]].
  - unfold get_record, query_get. cbn [history_records].
    destruct (find _ (filter _ _)) as [x|] eqn:E; [|reflexivity].
    apply find_some in E as [Hin E]. apply filter_In in Hin as [_ Hin].
    rewrite E in Hin. discriminate.
  - apply filter_none. intros p Hp. apply filter_In in Hp as [_ Hp].
    now apply negb_true_iff in Hp.
  - apply filter_none. intros i Hi. apply filter_In in Hi as [_ Hi].
    now apply negb_true_iff in Hi.
  - intros other Hne. unfold get_record, query_get. cbn [history_records].
    rewrite find_filter_implied.
    + destruct (find _ (history_records db)) as [x|] eqn:E; [|reflexivity].
      apply find_some in E as [_ E]. apply pystr_eqb_eq in E.
      unfold to_full_dict, record_pages, record_images.
      cbn [outline_pages task_images].
      rewrite !filter_filter_implied; [reflexivity | |];
        intros y Hy; apply pystr_eqb_eq in Hy; rewrite Hy, E;
        now rewrite pystr_eqb_neq.
    + intros x Hx. apply pystr_eqb_eq in Hx. rewrite Hx.
      now rewrite pystr_eqb_neq.
Qed.

Lemma delete_record_removes_record_witness :
  let out := delete_record svc (fs_t1 []) db2 (str "a") in
  let db' := snd (fst out) in
  fst (fst out) = true
  /\ get_record db' (str "a") = None
  /\ record_pages db' (str "a") = []
  /\ record_images db' (str "a") = []
  /\ forall other, other <> str "a" ->
                   get_record db' other = get_record db2 other.
Proof.
  apply (delete_record_removes_record svc (fs_t1 []) db2 (str "a") rec_a).
  reflexivity.
Defined.

(** X17. [delete_record] keeps the constraints of the schema, and
    returns [True] exactly when the record exists; when it does not,
    nothing is changed and no directory is removed. *)
Theorem delete_record_keeps_consistency
        (self : HistoryService) (fs : FileSystem) (db : Database)
        (rid : pystr) :
  consistent db ->
  let out := delete_record self fs db rid in
  consistent (snd (fst out))
  /\ (fst (fst out) = true <-> query_get db rid <> None)
  /\ (query_get db rid = None -> out = (false, db, None)).
Proof.
  intros (Hpk & Hup & Hui & Hfp & Hfi). cbv zeta. unfold delete_record.
  destruct (query_get db rid) as [r|] eqn:Hget; cbn [fst snd].
  - split; [|split; [split; congruence | congruence]].
    unfold consistent. cbn [history_records outline_pages task_images].
    assert (Hkeep : forall x, x <> rid -> In x (map id (history_records db)) ->
                    In x (map id (filter
                                    (fun r => negb (PyStr.eqb (id r) rid))
                                    (history_records db)))).
    { intros x Hx Hin. apply in_map_iff in Hin as (y & <- & Hy).
      apply in_map. apply filter_In. split; [exact Hy|].
      now rewrite pystr_eqb_neq. }
    repeat split; try now apply NoDup_map_filter.
    + intros p Hp. apply filter_In in Hp as [Hp Hne].
      apply Hkeep; [|now apply Hfp].
      intros E. rewrite E, pystr_eqb_refl in Hne. discriminate.
    + intros i Hi. apply filter_In in Hi as [Hi Hne].
      apply Hkeep; [|now apply Hfi].
      intros E. rewrite E, pystr_eqb_refl in Hne. discriminate.
  - repeat split; try assumption; try congruence.
Qed.

Lemma delete_record_keeps_consistency_witness :
  let out := delete_record svc (fs_t1 []) db2 (str "b") in
  consistent (snd (fst out))
  /\ (fst (fst out) = true <-> query_get db2 (str "b") <> None)
  /\ (query_get db2 (str "b") = None -> out = (false, db2, None)).
Proof.
  exact (delete_record_keeps_consistency svc (fs_t1 []) db2 (str "b")
                                         db2_consistent).
Defined.

(** ** The order of a query *)

Lemma insert_row_perm {A : Type} (key : A -> Z) (x : A) (l : list A) :
  Permutation (x :: l) (insert_row key x l).
Proof.
  induction l as [|y l IH]; simpl; [reflexivity|].
  destruct (key x <=? key y); [reflexivity|].
  rewrite perm_swap. now constructor.
Qed.

Lemma order_by_perm {A : Type} (key : A -> Z) (l : list A) :
  Permutation l (order_by key l).
Proof.
  induction l as [|x l IH]; simpl; [constructor|].
  rewrite <- insert_row_perm. now constructor.
Qed.

Lemma insert_row_sorted {A : Type} (key : A -> Z) (x : A) (l : list A) :
  StronglySorted (fun a b => key a <= key b) l ->
  StronglySorted (fun a b => key a <= key b) (insert_row key x l).
Proof.
  induction 1 as [|y l Hs IH Hy]; simpl.
  - constructor; constructor.
  - destruct (Z.leb_spec (key x) (key y)) as [Hle | Hlt].
    + constructor; [constructor; assumption|].
      constructor; [exact Hle|].
      eapply Forall_impl; [|exact Hy]. cbn; intros; lia.
    + constructor; [exact IH|].
      apply Forall_forall. intros z Hz.
      apply (Permutation_in _ (Permutation_sym (insert_row_perm key x l)))
        in Hz.
      destruct Hz as [<- | Hz]; [lia|].
      now apply (proj1 (Forall_forall _ _) Hy).
Qed.

Lemma order_by_sorted {A : Type} (key : A -> Z) (l : list A) :
  StronglySorted (fun a b => key a <= key b) (order_by key l).
Proof.
  induction l as [|x l IH]; simpl; [constructor|].
  now apply insert_row_sorted.
Qed.

Lemma strongly_sorted_map {A B : Type} (f : A -> B)
      (R : B -> B -> Prop) (l : list A) :
  StronglySorted (fun a b => R (f a) (f b)) l ->
  StronglySorted R (map f l).
Proof.
  induction 1 as [|x l Hs IH Hx]; simpl; constructor; [exact IH|].
  apply Forall_forall. intros y Hy. apply in_map_iff in Hy as (z & <- & Hz).
  now apply (proj1 (Forall_forall _ _) Hx).
Qed.

(** X18. The pages that [get_record] returns are the stored pages of
    the record, each once, in ascending order of their index; the file
    names it returns are those of the stored images of the record, as
    many as there are. *)
Theorem get_record_pages_in_order
        (db : Database) (rid : pystr) (d : FullDict) :
  get_record db rid = Some d ->
  Permutation (map to_dict (record_pages db rid)) (fd_pages d)
  /\ StronglySorted (fun a b => index a <= index b) (fd_pages d)
  /\ Permutation (map filename (record_images db rid)) (fd_generated d).
Proof.
  unfold get_record, query_get.
  destruct (find _ (history_records db)) as [r|] eqn:E; [|discriminate].
  apply find_some in E as [_ E]. apply pystr_eqb_eq in E.
  intros H. inversion H; subst d; clear H. cbn. rewrite E.
  repeat split.
  - apply Permutation_map, order_by_perm.
  - apply strongly_sorted_map. apply (order_by_sorted page_index).
  - apply Permutation_map, order_by_perm.
Qed.

Lemma get_record_pages_in_order_witness :
  exists d,
    get_record db2 (str "a") = Some d
    /\ fd_pages d = [mkPage 0 (str "content") (str "one");
                     mkPage 1 (str "content") (str "two")]
    /\ fd_generated d = [str "0.png"; str "1.png"]
    /\ StronglySorted (fun a b => index a <= index b) (fd_pages d).
Proof.
  destruct (get_record db2 (str "a")) as [d|] eqn:E; [|discriminate E].
  exists d. split; [reflexivity|].
  destruct (get_record_pages_in_order db2 (str "a") d E) as (_ & Hs & _).
  vm_compute in E. inversion E; subst d.
  repeat split; exact Hs.
Defined.

(** ** [list_records] *)

Lemma in_firstn {A : Type} (n : nat) (l : list A) (x : A) :
  In x (firstn n l) -> In x l.
Proof.
  intros H. rewrite <- (firstn_skipn n l). apply in_or_app. now left.
Qed.

Lemma in_skipn {A : Type} (n : nat) (l : list A) (x : A) :
  In x (skipn n l) -> In x l.
Proof.
  intros H. rewrite <- (firstn_skipn n l). apply in_or_app. now right.
Qed.

Lemma strongly_sorted_firstn {A : Type} (R : A -> A -> Prop) (l : list A) :
  StronglySorted R l -> forall n, StronglySorted R (firstn n l).
Proof.
  induction 1 as [|x l Hs IH Hx]; intros [|n]; simpl; try constructor.
  - apply IH.
  - apply Forall_forall. intros y Hy. apply in_firstn in Hy.
    now apply (proj1 (Forall_forall _ _) Hx).
Qed.

Lemma strongly_sorted_skipn {A : Type} (R : A -> A -> Prop) (l : list A) :
  StronglySorted R l -> forall n, StronglySorted R (skipn n l).
Proof.
  induction 1 as [|x l Hs IH Hx]; intros [|n]; simpl;
    try constructor; auto.
Qed.

Lemma strongly_sorted_weaken {A : Type} (R R' : A -> A -> Prop)
      (l : list A) :
  (forall a b, R a b -> R' a b) ->
  StronglySorted R l -> StronglySorted R' l.
Proof.
  intros H. induction 1 as [|x l Hs IH Hx]; constructor; [exact IH|].
  eapply Forall_impl; [|exact Hx]. apply H.
Qed.

Lemma in_sql_window {A : Type} (limit offset : Z) (l : list A) (x : A) :
  In x (sql_limit limit (sql_offset offset l)) -> In x l.
Proof.
  unfold sql_limit, sql_offset. intros H.
  destruct (limit <? 0); [|apply in_firstn in H]; now apply in_skipn in H.
Qed.

Lemma strongly_sorted_sql_window {A : Type} (R : A -> A -> Prop)
      (limit offset : Z) (l : list A) :
  StronglySorted R l ->
  StronglySorted R (sql_limit limit (sql_offset offset l)).
Proof.
  intros H. unfold sql_limit, sql_offset.
  destruct (limit <? 0); [|apply strongly_sorted_firstn];
    now apply strongly_sorted_skipn.
Qed.

Lemma ceiling_division (t ps : Z) :
  0 <= t -> 0 < ps ->
  let n := (t + ps - 1) / ps in
  0 <= n /\ (n - 1) * ps < t <= n * ps.
Proof.
  intros Ht Hps n.
  pose proof (Z.mul_div_le (t + ps - 1) ps Hps) as H1.
  pose proof (Z.mul_succ_div_gt (t + ps - 1) ps Hps) as H2.
  fold n in H1, H2.
  assert (0 <= n) by (apply Z.div_pos; lia).
  nia.
Qed.

(** X19. For a page size above 0, [list_records] returns at most
    [page_size] records; "total" is the number of records that pass the
    filter; "total_pages" is the least number of pages of that size that
    hold them all; and a page after the last one is empty. *)
Theorem list_records_page_bounds
        (db : Database) (page page_size : Z) (status : option pystr) :
  0 < page_size ->
  exists r,
    list_records db page page_size status = Some r
    /\ Z.of_nat (List.length (records r)) <= page_size
    /\ total r = Z.of_nat (List.length (records_query db status))
    /\ (total_pages r - 1) * page_size < total r <= total_pages r * page_size
    /\ (total_pages r < page -> records r = []).
Proof.
  intros Hps. unfold list_records.
  destruct (Z.eqb_spec page_size 0) as [|_]; [lia|].
  eexists. split; [reflexivity|]. cbn [records total total_pages].
  set (q := records_query db status).
  destruct (ceiling_division (Z.of_nat (List.length q)) page_size
                             (Nat2Z.is_nonneg _) Hps) as (Hn & Hlo & Hhi).
  unfold sql_limit. destruct (Z.ltb_spec page_size 0); [lia|].
  repeat split; try assumption.
  - rewrite length_map. pose proof (firstn_le_length (Z.to_nat page_size)
                                      (sql_offset ((page - 1) * page_size) q)).
    lia.
  - intros Hpage. unfold sql_offset.
    rewrite skipn_all2; [now rewrite firstn_nil|].
    apply Nat2Z.inj_le. rewrite Z2Nat.id by nia. nia.
Qed.

Lemma list_records_page_bounds_witness :
  exists r,
    list_records db2 3 1 None = Some r
    /\ Z.of_nat (List.length (records r)) <= 1
    /\ total r = Z.of_nat (List.length (records_query db2 None))
    /\ (total_pages r - 1) * 1 < total r <= total_pages r * 1
    /\ (total_pages r < 3 -> records r = []).
Proof.
  apply (list_records_page_bounds db2 3 1 None). reflexivity.
Defined.

Lemma firstn_add_skipn {A : Type} (a b : nat) :
  forall l : list A, firstn (a + b) l = firstn a l ++ firstn b (skipn a l).
Proof.
  induction a as [|a IH]; intros l; [reflexivity|].
  destruct l as [|x l]; simpl; [now rewrite firstn_nil | now rewrite IH].
Qed.

Lemma concat_chunks {A : Type} (size : nat) (l : list A) (n : nat) :
  List.concat (map (fun k => firstn size (skipn (k * size) l)) (seq 0 n))
  = firstn (n * size) l.
Proof.
  induction n as [|n IH]; [reflexivity|].
  rewrite seq_S, map_app, concat_app, IH. cbn [map List.concat plus].
  rewrite app_nil_r, <- firstn_add_skipn. f_equal. lia.
Qed.

(** X20. For a page size above 0, the pages 1 to "total_pages" of
    [list_records], put end to end, are the whole result of the query,
    each record once and in the order of the query: paging neither drops
    nor repeats a record. *)
Theorem list_records_pages_cover
        (db : Database) (page_size : Z) (status : option pystr) :
  0 < page_size ->
  let query := records_query db status in
  let last := (Z.of_nat (List.length query) + page_size - 1) / page_size in
  List.concat (map (fun k =>
                 match list_records db (Z.of_nat k) page_size status with
                 | Some r => records r
                 | None => []
                 end)
              (seq 1 (Z.to_nat last)))
  = map (to_index_dict db) query.
Proof.
  intros Hps query last.
  destruct (ceiling_division (Z.of_nat (List.length query)) page_size
                             (Nat2Z.is_nonneg _) Hps) as (Hn & _ & Hhi).
  fold last in Hn, Hhi.
  rewrite <- seq_shift, map_map.
  rewrite (map_ext _ (fun k => map (to_index_dict db)
                                   (firstn (Z.to_nat page_size)
                                           (skipn (k * Z.to_nat page_size)
                                                  query)))).
  - rewrite <- (map_map (fun k => firstn (Z.to_nat page_size)
                                         (skipn (k * Z.to_nat page_size) query))
                        (map (to_index_dict db))).
    rewrite <- concat_map, concat_chunks, firstn_all2; [reflexivity|].
    apply Nat2Z.inj_le. rewrite Nat2Z.inj_mul, !Z2Nat.id by lia. lia.
  - intros k. unfold list_records.
    destruct (Z.eqb_spec page_size 0) as [|_]; [lia|]. cbn [records].
    fold query. unfold sql_limit, sql_offset.
    destruct (Z.ltb_spec page_size 0); [lia|].
    replace (Z.to_nat ((Z.of_nat (S k) - 1) * page_size))
      with (k * Z.to_nat page_size)%nat; [reflexivity|].
    apply Nat2Z.inj. rewrite Nat2Z.inj_mul, !Z2Nat.id by nia. lia.
Qed.

Lemma list_records_pages_cover_witness :
  List.concat (map (fun k =>
                 match list_records db2 (Z.of_nat k) 1 None with
                 | Some r => records r
                 | None => []
                 end)
              (seq 1 2))
  = map (to_index_dict db2) [rec_b; rec_a].
Proof.
  apply (list_records_pages_cover db2 1 None). lia.
Defined.

(** X21. The records that [list_records] returns are in descending order
    of creation date, and with a non-empty status argument each of them
    has that status. *)
Theorem list_records_filter_and_order
        (db : Database) (page page_size : Z) (status : option pystr)
        (r : RecordPage) :
  list_records db page page_size status = Some r ->
  StronglySorted (fun a b => ix_created_at b <= ix_created_at a) (records r)
  /\ forall s, status = Some s -> truthy s = true ->
               Forall (fun d => ix_status d = s) (records r).
Proof.
  unfold list_records. destruct (page_size =? 0); [discriminate|].
  intros H. inversion H; subst r; clear H. cbn [records]. split.
  - apply strongly_sorted_map. cbn.
    apply strongly_sorted_sql_window. unfold records_query.
    eapply strongly_sorted_weaken;
      [|apply (order_by_sorted (fun x => - created_at x))].
    cbn. intros; lia.
  - intros s -> Hs. apply Forall_forall. intros d Hd.
    apply in_map_iff in Hd as (x & <- & Hx). apply in_sql_window in Hx.
    unfold records_query in Hx. rewrite Hs in Hx.
    apply (Permutation_in _ (Permutation_sym (order_by_perm _ _))) in Hx.
    apply filter_In in Hx as [_ Hx]. now apply pystr_eqb_eq in Hx.
Qed.

Lemma list_records_filter_and_order_witness :
  exists r,
    list_records db2 1 20 (Some (str "draft")) = Some r
    /\ records r = [to_index_dict db2 rec_b]
    /\ StronglySorted (fun a b => ix_created_at b <= ix_created_at a)
                      (records r).
Proof.
  destruct (list_records db2 1 20 (Some (str "draft"))) as [r|] eqn:E;
    [|discriminate E].
  exists r. split; [reflexivity|].
  destruct (list_records_filter_and_order db2 1 20 (Some (str "draft")) r E)
    as [Hs _].
  split; [|exact Hs]. vm_compute in E. inversion E. reflexivity.
Defined.

(** ** [get_statistics] *)

Lemma pystr_eqb_sym (a b : pystr) : PyStr.eqb a b = PyStr.eqb b a.
Proof.
  destruct (PyStr.eqb a b) eqn:E.
  - apply pystr_eqb_eq in E. subst. symmetry. apply pystr_eqb_refl.
  - symmetry. apply pystr_eqb_neq. intros ->.
    rewrite pystr_eqb_refl in E. discriminate.
Qed.

Lemma dict_get_bump (s s' : pystr) (groups : list (pystr * Z)) :
  dict_get s (bump s' groups)
  = if PyStr.eqb s' s
    then Some (match dict_get s groups with Some n => n + 1 | None => 1 end)
    else dict_get s groups.
Proof.
  induction groups as [|[k n] groups IH]; cbn.
  - destruct (PyStr.eqb s' s); reflexivity.
  - destruct (PyStr.eqb k s') eqn:Ek; cbn.
    + apply pystr_eqb_eq in Ek. subst k.
      destruct (PyStr.eqb s' s); reflexivity.
    + rewrite IH. destruct (PyStr.eqb k s) eqn:Es; [|reflexivity].
      apply pystr_eqb_eq in Es. subst k.
      now rewrite pystr_eqb_sym, Ek.
Qed.

Lemma sum_bump (s : pystr) (groups : list (pystr * Z)) :
  fold_right Z.add 0 (map snd (bump s groups))
  = fold_right Z.add 0 (map snd groups) + 1.
Proof.
  induction groups as [|[k n] groups IH]; cbn; [reflexivity|].
  destruct (PyStr.eqb k s); cbn; [|rewrite IH]; lia.
Qed.

Lemma keys_bump (s : pystr) (groups : list (pystr * Z)) :
  NoDup (map fst groups) -> NoDup (map fst (bump s groups)).
Proof.
  induction groups as [|[k n] groups IH]; cbn; intros H.
  - repeat constructor. easy.
  - inversion H as [|? ? Hk Hg]; subst.
    destruct (PyStr.eqb k s) eqn:E; cbn; constructor; auto.
    intros Hin. apply in_map_iff in Hin as ([k' n'] & Hk' & Hin).
    cbn in Hk'. subst k'.
    assert (Hget : dict_get k (bump s groups) <> None).
    { clear - Hin. induction (bump s groups) as [|[a b] l IHl];
        [easy|]. cbn. destruct (PyStr.eqb a k) eqn:Ea; [discriminate|].
      destruct Hin as [Hin | Hin]; [|auto].
      inversion Hin; subst. rewrite pystr_eqb_refl in Ea. discriminate. }
    rewrite dict_get_bump, pystr_eqb_sym, E in Hget.
    apply Hk. clear - Hget.
    induction groups as [|[a b] l IHl]; cbn in *; [congruence|].
    destruct (PyStr.eqb a k) eqn:Ea; [|right; auto].
    left. now apply pystr_eqb_eq.
Qed.

Lemma group_fold (rows : list HistoryRecord) :
  forall (groups : list (pystr * Z)) (s : pystr),
    let out := fold_left (fun g r => bump (status r) g) rows groups in
    let c := Z.of_nat (List.length
                         (filter (fun r => PyStr.eqb (status r) s) rows)) in
    dict_get s out
    = match dict_get s groups with
      | Some n => Some (n + c)
      | None => if c =? 0 then None else Some c
      end
    /\ fold_right Z.add 0 (map snd out)
       = fold_right Z.add 0 (map snd groups) + Z.of_nat (List.length rows)
    /\ (NoDup (map fst groups) -> NoDup (map fst out)).
Proof.
  induction rows as [|r rows IH]; intros groups s; cbn zeta.
  - cbn. repeat split; [|lia | auto].
    destruct (dict_get s groups); [f_equal; lia | reflexivity].
  - cbn [fold_left filter].
    destruct (IH (bump (status r) groups) s) as (H1 & H2 & H3).
    cbv zeta in H1, H2, H3. rewrite H1, H2, sum_bump, dict_get_bump.
    repeat split.
    + destruct (PyStr.eqb (status r) s); cbn [List.length].
      * destruct (dict_get s groups).
        -- f_equal. lia.
        -- destruct (Z.eqb_spec (Z.of_nat
                                   (S (List.length
                                         (filter (fun r0 =>
                                            PyStr.eqb (status r0) s) rows))))
                                0); [lia|].
           f_equal. lia.
      * reflexivity.
    + cbn [List.length]. lia.
    + intros Hnd. apply H3. now apply keys_bump.
Qed.

(** X22. In the result of [get_statistics], "by_status" has one entry
    for each status that some record has, and only for those; the entry
    holds the number of records of that status; the numbers add up to
    "total", which is the number of records. *)
Theorem get_statistics_counts (db : Database) (s : pystr) :
  let stats := get_statistics db in
  let c := Z.of_nat (List.length
                       (filter (fun r => PyStr.eqb (status r) s)
                               (history_records db))) in
  fst stats = Z.of_nat (List.length (history_records db))
  /\ dict_get s (snd stats) = (if c =? 0 then None else Some c)
  /\ fold_right Z.add 0 (map snd (snd stats)) = fst stats
  /\ NoDup (map fst (snd stats)).
Proof.
  cbv zeta. unfold get_statistics, group_by_status. cbn [fst snd].
  destruct (group_fold (history_records db) [] s) as (H1 & H2 & H3).
  cbv zeta in H1, H2, H3. cbn in H1, H2.
  repeat split; [exact H1 | exact H2 | apply H3; constructor].
Qed.

(** ** [scan_all_tasks] *)

Lemma scan_item_counts self fs clock (st : BatchState) (item : pystr) :
  let st' := scan_item self fs clock st item in
  let is_dir := match fs (os_path_join (history_dir self) item) with
                | NoDirectory => false
                | _ => true
                end in
  synced_count st' + failed_count st'
  + Z.of_nat (List.length (orphan_tasks_of st'))
  = synced_count st + failed_count st
    + Z.of_nat (List.length (orphan_tasks_of st))
    + (if is_dir then 1 else 0)
  /\ List.length (results_of st')
     = (List.length (results_of st) + (if is_dir then 1 else 0))%nat
  /\ synced_count st <= synced_count st'
  /\ failed_count st <= failed_count st'
  /\ (forall t, In t (orphan_tasks_of st') ->
                In t (orphan_tasks_of st) \/ t = item).
Proof.
  cbv zeta. unfold scan_item.
  destruct (fs (os_path_join (history_dir self) item)) as [|e|names].
  - repeat split; try lia. auto.
  - destruct (success _); [destruct (no_record _)|];
      cbn [synced_count failed_count orphan_tasks_of results_of];
      rewrite ?length_app; cbn [List.length];
      repeat split; try lia; auto.
    intros t Ht. apply in_app_or in Ht as [Ht | [<- | []]]; auto.
  - destruct (success _); [destruct (no_record _)|];
      cbn [synced_count failed_count orphan_tasks_of results_of];
      rewrite ?length_app; cbn [List.length];
      repeat split; try lia; auto.
    intros t Ht. apply in_app_or in Ht as [Ht | [<- | []]]; auto.
Qed.

Lemma scan_items_counts self fs clock (items : list pystr) :
  forall st : BatchState,
    let st' := fold_left (scan_item self fs clock) items st in
    let subdirs :=
      filter (fun item =>
                match fs (os_path_join (history_dir self) item) with
                | NoDirectory => false
                | _ => true
                end) items in
    synced_count st' + failed_count st'
    + Z.of_nat (List.length (orphan_tasks_of st'))
    = synced_count st + failed_count st
      + Z.of_nat (List.length (orphan_tasks_of st))
      + Z.of_nat (List.length subdirs)
    /\ List.length (results_of st')
       = (List.length (results_of st) + List.length subdirs)%nat
    /\ synced_count st <= synced_count st'
    /\ failed_count st <= failed_count st'
    /\ (forall t, In t (orphan_tasks_of st') ->
                  In t (orphan_tasks_of st) \/ In t items).
Proof.
  induction items as [|item items IH]; intros st; cbv zeta.
  - cbn. repeat split; try lia. auto.
  - cbn [fold_left filter].
    destruct (IH (scan_item self fs clock st item))
      as (H1 & H2 & H3 & H4 & H5).
    destruct (scan_item_counts self fs clock st item)
      as (K1 & K2 & K3 & K4 & K5).
    cbv zeta in H1, H2, H3, H4, H5, K1, K2, K3, K4, K5.
    destruct (fs (os_path_join (history_dir self) item));
      cbn [List.length]; repeat split; try lia;
      intros t Ht; destruct (H5 t Ht) as [Ht' | Ht'];
      try (right; right; exact Ht');
      destruct (K5 t Ht') as [Ht'' | ->]; auto; right; now left.
Qed.

(** X23. When the history directory can be listed, [scan_all_tasks]
    reports as "total_tasks" the number of its entries that are
    directories, one result for each of them, and every one of these
    tasks is counted once: as synced, as failed or in the list of the
    orphans, which holds entries of the directory only. *)
Theorem scan_all_tasks_counts
        (self : HistoryService) (disk : Disk) (clock : pystr -> Z)
        (db : Database) (items : list pystr) :
  dirs disk (history_dir self) = Listing items ->
  exists synced failed orphans results,
    fst (scan_all_tasks self disk clock db)
    = BatchDone (Z.of_nat (List.length results)) synced failed orphans
                results
    /\ List.length results
       = List.length
           (filter (fun item =>
                      match dirs disk (os_path_join (history_dir self) item)
                      with
                      | NoDirectory => false
                      | _ => true
                      end) items)
    /\ synced + failed + Z.of_nat (List.length orphans)
       = Z.of_nat (List.length results)
    /\ 0 <= synced /\ 0 <= failed
    /\ forall t, In t orphans -> In t items.
Proof.
  intros Hdir. unfold scan_all_tasks, path_exists. rewrite Hdir.
  cbn [negb]. unfold batch_done. cbn [fst].
  destruct (scan_items_counts self (dirs disk) clock items
                              (mkBatchState 0 0 [] [] db))
    as (H1 & H2 & H3 & H4 & H5).
  cbv zeta in H1, H2, H3, H4, H5.
  cbn [synced_count failed_count orphan_tasks_of results_of List.length]
    in H1, H2, H3, H4, H5.
  do 4 eexists. split; [reflexivity|].
  repeat split; try lia; try exact H2.
  intros t Ht. destruct (H5 t Ht) as [[] | Ht']. exact Ht'.
Qed.

Lemma scan_all_tasks_counts_witness :
  fst (scan_all_tasks svc disk2 (fun _ => 60) db2)
  = BatchDone 3 1 1 [str "tx"]
      [Synced (str "a") (str "ta") 2 [str "0.png"; str "1.png"]
              (str "completed");
       Orphan (str "tx") 1 [str "0.jpg"];
       Failure (msg_scan_failed ++ str "denied")]
  /\ exists synced failed orphans results,
      fst (scan_all_tasks svc disk2 (fun _ => 60) db2)
      = BatchDone (Z.of_nat (List.length results)) synced failed orphans
                  results
      /\ synced + failed + Z.of_nat (List.length orphans)
         = Z.of_nat (List.length results).
Proof.
  split; [vm_compute; reflexivity|].
  destruct (scan_all_tasks_counts
              svc disk2 (fun _ => 60) db2
              [str "ta"; str "index.json"; str "tx"; str "ty"] eq_refl)
    as (s & f & o & r & H1 & _ & H3 & _).
  exists s, f, o, r. split; [exact H1 | exact H3].
Defined.

Lemma scan_items_orphans self fs clock (db : Database)
      (items : list pystr) :
  (forall item, In item items -> query_first_by_task_id db item = None) ->
  forall st : BatchState,
    batch_db st = db ->
    let st' := fold_left (scan_item self fs clock) items st in
    batch_db st' = db /\ synced_count st' = synced_count st.
Proof.
  induction items as [|item items IH]; intros Hq st Hdb; cbv zeta;
    [split; [exact Hdb | reflexivity]|].
  cbn [fold_left].
  assert (Hstep : batch_db (scan_item self fs clock st item) = db
                  /\ synced_count (scan_item self fs clock st item)
                     = synced_count st).
  { unfold scan_item, scan_and_sync_task_images. rewrite Hdb.
    rewrite (Hq item (or_introl eq_refl)).
    destruct (fs (os_path_join (history_dir self) item)); cbn;
      split; auto. }
  destruct Hstep as [Hdb' Hs'].
  destruct (IH (fun i Hi => Hq i (or_intror Hi)) _ Hdb') as [H1 H2].
  cbv zeta in H1, H2. split; [exact H1 | congruence].
Qed.

(** X24. When no entry of the history directory is the task id of a
    record, [scan_all_tasks] leaves the database as it is and counts no
    task as synced. *)
Theorem scan_all_tasks_orphans_only
        (self : HistoryService) (disk : Disk) (clock : pystr -> Z)
        (db : Database) (items : list pystr) :
  dirs disk (history_dir self) = Listing items ->
  (forall item, In item items -> query_first_by_task_id db item = None) ->
  snd (scan_all_tasks self disk clock db) = db
  /\ exists failed orphans results,
      fst (scan_all_tasks self disk clock db)
      = BatchDone (Z.of_nat (List.length results)) 0 failed orphans results.
Proof.
  intros Hdir Hq. unfold scan_all_tasks, path_exists. rewrite Hdir.
  cbn [negb]. unfold batch_done. cbn [fst snd].
  destruct (scan_items_orphans self (dirs disk) clock db items Hq
                               (mkBatchState 0 0 [] [] db) eq_refl)
    as [H1 H2].
  cbv zeta in H1, H2. cbn [synced_count] in H2.
  split; [exact H1|]. rewrite H2. do 3 eexists. reflexivity.
Qed.

Lemma scan_all_tasks_orphans_only_witness :
  snd (scan_all_tasks svc disk2 (fun _ => 60) db_new) = db_new
  /\ exists failed orphans results,
      fst (scan_all_tasks svc disk2 (fun _ => 60) db_new)
      = BatchDone (Z.of_nat (List.length results)) 0 failed orphans results.
Proof.
  apply (scan_all_tasks_orphans_only
           svc disk2 (fun _ => 60) db_new
           [str "ta"; str "index.json"; str "tx"; str "ty"] eq_refl).
  intros item [<- | [<- | [<- | [<- | []]]]]; reflexivity.
Defined.

(** ** [search_records] *)

Lemma like_any_here (f : pystr -> bool) (text : pystr) :
  f text = true -> like_any f text = true.
Proof. intros H. destruct text; cbn; now rewrite H. Qed.

Lemma like_any_end (f : pystr -> bool) (text : pystr) :
  f [] = true -> like_any f text = true.
Proof.
  intros H. induction text as [|c text IH]; cbn.
  - now rewrite H.
  - rewrite IH. apply orb_true_r.
Qed.



Lemma like_percents (pattern text : pystr) :
  pattern <> [] -> Forall (fun c => c = 37%N) pattern ->
  pattern_compare pattern text = true.
Proof.
  intros Hne H. revert text.
  induction H as [|c pattern -> _ IH]; [congruence|]. intros text.
  cbn. destruct pattern as [|c' pattern].
  - now apply like_any_end.
  - apply like_any_here. now apply IH.
Qed.






Lemma ascii_lower_nul (c : N) : (ascii_lower c =? 0)%N = (c =? 0)%N.
Proof.
  unfold ascii_lower.
  destruct ((65 <=? c)%N && (c <=? 90)%N) eqn:E; [|reflexivity].
  apply andb_true_iff in E as [E1 _]. apply N.leb_le in E1.
  rewrite (proj2 (N.eqb_neq c 0)) by lia. apply N.eqb_neq. lia.
Qed.

Lemma until_nul_lowered (s : pystr) :
  until_nul (map ascii_lower s) = map ascii_lower (until_nul s).
Proof.
  unfold until_nul. induction s as [|c s IH]; cbn [map takewhile];
    [reflexivity|].
  rewrite ascii_lower_nul. destruct (c =? 0)%N; cbn [negb map];
    [reflexivity | now rewrite IH].
Qed.

Lemma until_nul_without_nul (s : pystr) :
  Forall (fun c => c <> 0%N) s -> until_nul s = s.
Proof.
  unfold until_nul. induction 1 as [|c s Hc _ IH]; cbn [takewhile];
    [reflexivity|].
  now rewrite (proj2 (N.eqb_neq c 0) Hc), IH.
Qed.




(** X26. A keyword made of "%" signs only, the empty keyword
    included, and short enough for SQLite, matches every title:
    [search_records] then returns all the records, in descending order
    of creation date. In a keyword these signs are wildcards, not
    characters to look for. *)
Theorem search_records_wildcard_keyword (db : Database) (keyword : pystr) :
  Forall (fun c => c = 37%N) keyword ->
  (utf8_length (str "%" ++ keyword ++ str "%") <= 50000)%N ->
  search_records db keyword
  = Some (map (to_index_dict db)
              (order_by (fun r => - created_at r) (history_records db))).
Proof.
  intros Hk Hlen. unfold search_records.
  assert (Hall : Forall (fun c => c = 37%N)
                        (str "%" ++ keyword ++ str "%")).
  { apply Forall_app. split; [repeat constructor|].
    apply Forall_app. split; [exact Hk | repeat constructor]. }
  assert (He : encodable (str "%" ++ keyword ++ str "%") = true).
  { apply forallb_forall. intros c Hc.
    now rewrite (proj1 (Forall_forall _ _) Hall c Hc). }
  rewrite He. cbn [negb].
  rewrite (proj2 (N.ltb_ge _ _) Hlen). cbn [andb].
  do 3 f_equal.
  apply forallb_filter_id. apply forallb_forall. intros r _.
  unfold ilike, like. rewrite until_nul_lowered.
  rewrite (until_nul_without_nul (str "%" ++ keyword ++ str "%")).
  2:{ apply Forall_forall. intros c Hc.
      now rewrite (proj1 (Forall_forall _ _) Hall c Hc). }
  apply like_percents; [discriminate|].
  apply Forall_forall. intros c Hc.
  apply in_map_iff in Hc as (c' & <- & Hc').
  now rewrite (proj1 (Forall_forall _ _) Hall c' Hc').
Qed.

Lemma search_records_wildcard_keyword_witness :
  search_records db2 (str "%")
  = Some [to_index_dict db2 rec_b; to_index_dict db2 rec_a].
Proof.
  apply (search_records_wildcard_keyword db2 (str "%")).
  - repeat constructor.
  - vm_compute. discriminate.
Defined.

(** ** Images written, images read *)

Lemma order_by_already_sorted {A : Type} (key : A -> Z) (l : list A) :
  StronglySorted (fun a b => key a <= key b) l -> order_by key l = l.
Proof.
  induction 1 as [|x l Hs IH Hx]; [reflexivity|].
  cbn [order_by]. rewrite IH. destruct l as [|y l]; [reflexivity|].
  cbn [insert_row]. inversion Hx as [|? ? Hxy _]; subst.
  now rewrite (proj2 (Z.leb_le _ _) Hxy).
Qed.

Lemma enumerate_rows_sorted (rid : pystr) (files : list pystr) :
  forall k,
    StronglySorted (fun a b => image_index a <= image_index b)
                   (map (stored_image rid) (enumerate k files)).
Proof.
  induction files as [|a files IH]; intros k; cbn; constructor;
    [apply IH|].
  apply Forall_forall. intros i Hi. apply in_map_iff in Hi as (e & <- & He).
  apply enumerate_lower in He. cbn. lia.
Qed.

Lemma enumerate_rows_filenames (rid : pystr) (files : list pystr) :
  forall k, map filename (map (stored_image rid) (enumerate k files)) = files.
Proof.
  induction files as [|a files IH]; intros k; cbn; [|rewrite IH];
    reflexivity.
Qed.

Lemma map_Some_injective (a b : list pystr) :
  map Some a = map Some b -> a = b.
Proof.
  revert b. induction a as [|x a IH]; intros [|y b] H; try discriminate;
    [reflexivity|].
  inversion H. f_equal. now apply IH.
Qed.

(** X27. After a committed [update_record] with a non-empty
    "generated" list, [get_record] returns exactly that list of file
    names, in the order given, whatever images the record had before. *)
Theorem update_record_then_get_record_images
        (db : Database) (now : Z) (rid : pystr)
        (outline : option OutlineDict) (images : option ImagesDict)
        (status thumbnail : option pystr) (files : list pystr) :
  generated_of images = map Some files ->
  files <> [] ->
  fst (update_record db now rid outline images status thumbnail) = true ->
  option_map fd_generated
             (get_record (snd (update_record db now rid outline images
                                             status thumbnail)) rid)
  = Some files.
Proof.
  intros Hgen Hne Hok.
  destruct (update_record_cases db now rid outline images status thumbnail)
    as [(Hf & _) | (r0 & files' & Hget & Hgen' & _ & R)]; [congruence|].
  rewrite Hgen in Hgen'. apply map_Some_injective in Hgen'. subst files'.
  rewrite R. cbn [snd]. unfold get_record.
  rewrite query_get_update_first by apply updated_record_id.
  rewrite Hget. cbn [option_map fd_generated to_full_dict].
  rewrite updated_record_id.
  apply find_some in Hget as [_ Hid]. apply pystr_eqb_eq in Hid.
  rewrite Hid. destruct files as [|a files]; [congruence|].
  rewrite record_images_replaced.
  rewrite order_by_already_sorted by apply enumerate_rows_sorted.
  f_equal. apply enumerate_rows_filenames.
Qed.

Lemma update_record_then_get_record_images_witness :
  option_map fd_generated
             (get_record (snd (update_record db2 40 (str "a") None
                                             (Some images_plain) None None))
                         (str "a"))
  = Some [str "0.png"; str "1.png"].
Proof.
  apply (update_record_then_get_record_images
           db2 40 (str "a") None (Some images_plain) None None
           [str "0.png"; str "1.png"]).
  - reflexivity.
  - discriminate.
  - reflexivity.
Defined.
